(** * CRUCIBLE: the tool dispatcher and the conversation orchestrators

    A shallow embedding of [demo_tools.py] (the dispatcher [execute_tool]),
    [demo_llm.py] (the command-line orchestrator [CrucibleChat.chat]) and
    [streamlit_demo.py] (the web orchestrator [get_response] and the page
    script around it), with the properties of the design document proved
    or refuted on them.

    The generation engine ([llama_cpp]), the classifier
    ([tools.identify_material]) and the [json] module are collaborators that
    live outside the three files: they enter as section variables and are
    instantiated by small test doubles in the examples at the end. *)

From Stdlib Require Import ZArith Floats.PrimFloat.
From stdpp Require Import gmap strings list fin_maps pretty.

#[local] Set Warnings "-register-all,-inexact-float".
#[local] Open Scope string_scope.
#[local] Open Scope list_scope.

(** ** Python values, exceptions and results *)

Module Py.

(** The values [json.loads] produces and [json.dumps] consumes.  A Python
    [float] is a binary64 number, as is Rocq's primitive [float]; a [dict]
    with string keys is a finite map. *)
Inductive pyval : Type :=
| PNone
| PBool (b : bool)
| PInt (z : Z)
| PFloat (f : float)
| PStr (s : string)
| PList (l : list pyval)
| PDict (d : gmap string pyval).

(** What can be raised, split the way the [except] clauses of the code
    split it: a [KeyError] (or an instance of a subclass); an instance of
    any other subclass of [Exception], kept with its class name; and an
    exception outside [Exception], such as [KeyboardInterrupt] or
    [SystemExit], also with its class name.  All carry [str(e)]. *)
Inductive exn : Type :=
| KeyError (msg : string)
| Exception (cls : string) (msg : string)
| BaseOnly (cls : string) (msg : string).

(** [str(e)] *)
Definition str (e : exn) : string :=
  match e with
  | KeyError msg => msg
  | Exception _ msg => msg
  | BaseOnly _ msg => msg
  end.

(** [isinstance(e, Exception)] *)
Definition is_exception (e : exn) : bool :=
  match e with
  | KeyError _ | Exception _ _ => true
  | BaseOnly _ _ => false
  end.

(** A call either returns or raises. *)
Inductive res (A : Type) : Type :=
| Ok (a : A)
| Raise (e : exn).
Arguments Ok {A} a.
Arguments Raise {A} e.

(** [repr(k)] for a key without quote characters, which is how
    [str(KeyError(k))] prints the key. *)
Definition repr_key (k : string) : string := "'" +:+ k +:+ "'".

(** [obj[key]] for a string [key]: a lookup on a [dict], a [TypeError] on
    everything else [json.loads] can return. *)
Definition getitem (obj : pyval) (key : string) : res pyval :=
  match obj with
  | PDict d =>
      match d !! key with
      | Some v => Ok v
      | None => Raise (KeyError (repr_key key))
      end
  | PList _ =>
      Raise (Exception "TypeError" "list indices must be integers or slices, not str")
  | PStr _ =>
      Raise (Exception "TypeError" "string indices must be integers, not 'str'")
  | PNone => Raise (Exception "TypeError" "'NoneType' object is not subscriptable")
  | PBool _ => Raise (Exception "TypeError" "'bool' object is not subscriptable")
  | PInt _ => Raise (Exception "TypeError" "'int' object is not subscriptable")
  | PFloat _ => Raise (Exception "TypeError" "'float' object is not subscriptable")
  end.

(** [needle in haystack] on strings. *)
Definition contains (haystack needle : string) : Prop :=
  exists before after, haystack = before +:+ needle +:+ after.

End Py.

(** ** The messages exchanged with the generation engine *)

Module Protocol.
Import Py.

(** [tool_call["function"]]: the tool's name and its arguments, still as
    JSON text. *)
Record function_call : Type := FunctionCall {
  fn_name : string;
  fn_arguments : string
}.

(** One entry of [message["tool_calls"]]. *)
Record tool_call : Type := ToolCall {
  tc_id : string;
  tc_function : function_call
}.

Inductive role : Type := system | user | assistant | tool.

(** The three shapes of dictionaries the orchestrators put in a context:
    - [{"role": r, "content": c}]
    - [{"role": "assistant", "content": None, "tool_calls": tcs}]
    - [{"role": "tool", "tool_call_id": i, "content": c}] *)
Inductive turn : Type :=
| Msg (r : role) (content : option string)
| ToolRequest (tool_calls : list tool_call)
| ToolResult (tool_call_id : string) (content : string).

(** [response["choices"][0]["message"]].  [content] may be [None]; an
    absent, [None] or empty [tool_calls] is the empty list, which is what
    the truth test [message.get("tool_calls")] distinguishes. *)
Record message : Type := Message {
  msg_content : option string;
  msg_tool_calls : list tool_call
}.

End Protocol.

(** ** State and control: what a call can touch, and how it can end *)

Module Runtime.
Import Py Protocol.

(** One call of the classifier, by its three positional arguments. *)
Definition invocation : Type := pyval * pyval * pyval.

(** The state a request runs in: the engine object, the stored session
    history, and two logs kept for the proofs only, the engine calls made
    (context sent, reply or fault received) and the classifier calls
    made, both in the order they happened. *)
Record world (E H : Type) : Type := World {
  llm : E;
  history : H;
  exchanges : list (list turn * res message);
  invocations : list invocation
}.
Arguments World {E H} _ _ _ _.
Arguments llm {E H} _.
Arguments history {E H} _.
Arguments exchanges {E H} _.
Arguments invocations {E H} _.

(** A computation reads and updates the state and returns or raises. *)
Definition M (W A : Type) : Type := W -> res A * W.

Definition ret {W A} (a : A) : M W A := fun w => (Ok a, w).

Definition raise {W A} (e : exn) : M W A := fun w => (Raise e, w).

Definition bind {W A B} (c : M W A) (k : A -> M W B) : M W B :=
  fun w =>
    match c w with
    | (Ok a, w') => k a w'
    | (Raise e, w') => (Raise e, w')
    end.

(** [try: body / except ...]: what the body raises goes to [handler],
    which stands for the [except] clauses together and raises again what
    none of them takes. *)
Definition try_except {W A} (body : M W A) (handler : exn -> M W A) : M W A :=
  fun w =>
    match body w with
    | (Ok a, w') => (Ok a, w')
    | (Raise e, w') => handler e w'
    end.

(** A pure call that may raise. *)
Definition lift {W A} (r : res A) : M W A := fun w => (r, w).

Definition get_history {E H} : M (world E H) H :=
  fun w => (Ok (history w), w).

Definition set_history {E H} (h : H) : M (world E H) unit :=
  fun w => (Ok tt, World (llm w) h (exchanges w) (invocations w)).

Definition log_invocation {E H} (c : invocation) : M (world E H) unit :=
  fun w => (Ok tt, World (llm w) (history w) (exchanges w) (invocations w ++ [c])).

(** How a bounded [for] loop with a [return] inside ends when it does not
    raise: by that [return], or by running out of iterations. *)
Inductive loop_exit : Type :=
| Returned (content : option string)
| Exhausted.

End Runtime.

Declare Scope py_scope.
Delimit Scope py_scope with py.
Notation "x <- c ;; k" := (Runtime.bind c (fun x => k))
  (at level 100, c at next level, right associativity) : py_scope.
Notation "c ;; k" := (Runtime.bind c (fun _ => k))
  (at level 100, right associativity) : py_scope.
#[local] Open Scope py_scope.

(** ** demo_tools.py *)

Module DemoTools.
Import Py Protocol Runtime.

(** The outcome dictionaries, before serialisation. *)
Definition success (result : pyval) : pyval :=
  PDict (<["success" := PBool true]> (<["result" := result]> ∅)).

Definition failure (error : string) : pyval :=
  PDict (<["success" := PBool false]> (<["error" := PStr error]> ∅)).

(** [TOOL_SCHEMA["function"]["name"]] and
    [TOOL_SCHEMA["function"]["parameters"]["required"]]. *)
Definition TOOL_NAME : string := "identify_material".
Definition REQUIRED : list string := ["peak_1"; "peak_2"; "formation_energy"].

(** [test_args] of the smoke test at the end of the file. *)
Definition test_args : gmap string pyval :=
  <["peak_1" := PInt 465]>
    (<["peak_2" := PInt 610]> (<["formation_energy" := PFloat (-11.2)]> ∅)).

Section Dispatcher.
Context {E H : Type}.

(** [tools.identify_material]: a function of its three arguments that
    returns a value or raises. *)
Variable identify_material : pyval -> pyval -> pyval -> res pyval.

(** [json.dumps]: the text of a value, or the exception it raises on a
    value it cannot serialise. *)
Variable json_dumps : pyval -> res string.

(** The call [identify_material(a, b, c)], recorded in the log. *)
Definition call_identify_material (a b c : pyval) : M (world E H) pyval :=
  log_invocation (a, b, c);;
  lift (identify_material a b c).

Definition execute_tool (tool_name : string) (arguments : pyval)
  : M (world E H) string :=
  if bool_decide (tool_name <> "identify_material") then
    lift (json_dumps (failure ("Unknown tool: " +:+ tool_name)))
  else
    try_except
      (peak_1 <- lift (getitem arguments "peak_1");;
       peak_2 <- lift (getitem arguments "peak_2");;
       formation_energy <- lift (getitem arguments "formation_energy");;
       result <- call_identify_material peak_1 peak_2 formation_energy;;
       lift (json_dumps (success result)))
      (fun e =>
         match e with
         | KeyError _ =>
             lift (json_dumps (failure ("Missing argument: " +:+ str e)))
         | Exception _ _ =>
             lift (json_dumps (failure (str e)))
         | BaseOnly _ _ => raise e
         end).

End Dispatcher.
End DemoTools.

(** ** demo_llm.py *)

Module DemoLlm.
Import Py Protocol Runtime.

Definition SYSTEM_PROMPT : string :=
"You are CRUCIBLE, a material science assistant that helps identify materials from spectroscopic data.

Your main capability is identifying materials using Raman spectroscopy data. You have access to a tool called 'identify_material' that requires three parameters:
- peak_1: First Raman peak in cm^-1
- peak_2: Second Raman peak in cm^-1  
- formation_energy: Formation energy in eV/atom

When users provide this data, use the tool to identify the material. If data is missing, politely ask for it.

Be concise, scientific, and helpful. Explain your identifications briefly.".

Definition FALLBACK : string :=
  "I had trouble processing that request. Could you rephrase?".

Section CrucibleChat.
Context {E : Type}.

(** [Llama.create_chat_completion] on the engine object: given the context
    it returns a reply or raises, and may change the engine (sampling is not
    deterministic).  The other arguments of the call are constants. *)
Variable create_chat_completion : E -> list turn -> E * res message.
Variable identify_material : pyval -> pyval -> pyval -> res pyval.
(** [json.loads] raises on text that is not JSON. *)
Variable json_loads : string -> res pyval.
Variable json_dumps : pyval -> res string.

(** [self.llm.create_chat_completion(messages=messages, ...)] followed by
    [response["choices"][0]["message"]]; a malformed response is a fault of
    the call. *)
Definition llm_create_chat_completion (messages : list turn)
  : M (world E (list turn)) message :=
  fun w =>
    let '(llm', reply) := create_chat_completion (llm w) messages in
    (reply, World llm' (history w) (exchanges w ++ [(messages, reply)]) (invocations w)).

(** [self.history.append(t)] *)
Definition history_append (t : turn) : M (world E (list turn)) unit :=
  fun w => (Ok tt, World (llm w) (history w ++ [t]) (exchanges w) (invocations w)).

(** The [for _ in range(3)] loop of [chat], with [n] iterations left.
    [messages] is the list built by [[...] + self.history], a fresh list:
    appending to it leaves [self.history] alone.  The two [print] calls of
    a cycle write to the terminal only and are left out. *)
Fixpoint tool_loop (n : nat) (messages : list turn)
  : M (world E (list turn)) loop_exit :=
  match n with
  | O => ret Exhausted
  | S n' =>
      message <- llm_create_chat_completion messages;;
      match msg_tool_calls message with
      | tool_call :: _ =>
          let tool_name := fn_name (tc_function tool_call) in
          tool_args <- lift (json_loads (fn_arguments (tc_function tool_call)));;
          tool_result <-
            DemoTools.execute_tool identify_material json_dumps tool_name tool_args;;
          tool_loop n'
            (messages ++ [ToolRequest [tool_call];
                          ToolResult (tc_id tool_call) tool_result])
      | [] => ret (Returned (msg_content message))
      end
  end.

Definition chat (user_message : string) : M (world E (list turn)) (option string) :=
  history_append (Msg user (Some user_message));;
  history <- get_history;;
  let messages := [Msg system (Some SYSTEM_PROMPT)] ++ history in
  exit <- tool_loop 3 messages;;
  match exit with
  | Returned assistant_response =>
      history_append (Msg assistant assistant_response);;
      ret assistant_response
  | Exhausted => ret (Some FALLBACK)
  end.

Definition clear_history : M (world E (list turn)) unit := set_history [].

(** The object [CrucibleChat(model_path)] builds, around a loaded engine. *)
Definition init (engine : E) : world E (list turn) := World engine [] [] [].

End CrucibleChat.
End DemoLlm.

(** ** streamlit_demo.py *)

Module StreamlitDemo.
Import Py Protocol Runtime.

(** The page keeps its own copy of the prompt, with the same text.  In the
    state of a page, [llm] is [st.session_state.llm] and [history] is
    [st.session_state.messages]. *)
Definition SYSTEM_PROMPT : string := DemoLlm.SYSTEM_PROMPT.

Definition FALLBACK : string :=
  "I had trouble processing that. Could you rephrase?".

(** One entry of [tool_calls_info]. *)
Record tool_call_info : Type := ToolCallInfo {
  info_name : string;
  info_args : pyval;
  info_result : pyval
}.

(** One entry of [st.session_state.messages]; a missing ["tool_calls"] key
    is the empty list, which is how every reader of the key treats it. *)
Record stored_message : Type := StoredMessage {
  sm_role : role;
  sm_content : option string;
  sm_tool_calls : list tool_call_info
}.

Definition is_user_or_assistant (msg : stored_message) : bool :=
  match sm_role msg with
  | user | assistant => true
  | system | tool => false
  end.

Section Page.
Context {E : Type}.
Variable create_chat_completion : E -> list turn -> E * res message.
Variable identify_material : pyval -> pyval -> pyval -> res pyval.
Variable json_loads : string -> res pyval.
Variable json_dumps : pyval -> res string.

Definition llm_create_chat_completion (messages : list turn)
  : M (world E (list stored_message)) message :=
  fun w =>
    let '(llm', reply) := create_chat_completion (llm w) messages in
    (reply, World llm' (history w) (exchanges w ++ [(messages, reply)]) (invocations w)).

(** [st.session_state.messages.append(msg)] *)
Definition messages_append (msg : stored_message)
  : M (world E (list stored_message)) unit :=
  fun w => (Ok tt, World (llm w) (history w ++ [msg]) (exchanges w) (invocations w)).

(** The [for _ in range(3)] loop of [get_response]; [tool_calls_info] is
    the list the loop appends to. *)
Fixpoint tool_loop (n : nat) (messages : list turn)
    (tool_calls_info : list tool_call_info)
  : M (world E (list stored_message)) (loop_exit * list tool_call_info) :=
  match n with
  | O => ret (Exhausted, tool_calls_info)
  | S n' =>
      message <- llm_create_chat_completion messages;;
      match msg_tool_calls message with
      | tool_call :: _ =>
          let tool_name := fn_name (tc_function tool_call) in
          tool_args <- lift (json_loads (fn_arguments (tc_function tool_call)));;
          tool_result <-
            DemoTools.execute_tool identify_material json_dumps tool_name tool_args;;
          result <- lift (json_loads tool_result);;
          tool_loop n'
            (messages ++ [ToolRequest [tool_call];
                          ToolResult (tc_id tool_call) tool_result])
            (tool_calls_info ++ [ToolCallInfo tool_name tool_args result])
      | [] => ret (Returned (msg_content message), tool_calls_info)
      end
  end.

Definition get_response (user_message : string)
  : M (world E (list stored_message)) (option string * list tool_call_info) :=
  stored <- get_history;;
  let messages :=
    [Msg system (Some SYSTEM_PROMPT)]
    ++ map (fun msg => Msg (sm_role msg) (sm_content msg))
         (List.filter is_user_or_assistant stored)
    ++ [Msg user (Some user_message)] in
  r <- tool_loop 3 messages [];;
  match r with
  | (Returned content, tool_calls_info) => ret (content, tool_calls_info)
  | (Exhausted, tool_calls_info) => ret (Some FALLBACK, tool_calls_info)
  end.

(** The page script from [st.chat_input] on, run when the user submits
    [prompt]; the widgets that only draw are left out. *)
Definition on_chat_input (prompt : string) : M (world E (list stored_message)) unit :=
  messages_append (StoredMessage user (Some prompt) []);;
  r <- get_response prompt;;
  let '(response, tool_calls) := r in
  messages_append
    (StoredMessage assistant response
       match tool_calls with
       | [] => []
       | _ :: _ => tool_calls
       end).

End Page.
End StreamlitDemo.

(** ** Notions the statements below are phrased in *)

Module Notions.
Import Py Protocol Runtime.

(** A turn of the stored history of [CrucibleChat]: a role and a text. *)
Definition plain (t : turn) : Prop :=
  match t with
  | Msg _ _ => True
  | ToolRequest _ | ToolResult _ _ => False
  end.

(** Every invocation in a context is resolved: a turn that carries
    invocations carries exactly one, the turn right after it is the
    tool-role turn with that invocation's identifier, the turn after that
    one is not a tool-role turn; and no tool-role turn stands without the
    invocation turn right before it. *)
Definition resolved (ctx : list turn) : Prop :=
  (forall i tcs, ctx !! i = Some (ToolRequest tcs) ->
     exists tc text,
       tcs = [tc]
       /\ ctx !! (S i) = Some (ToolResult (tc_id tc) text)
       /\ forall id' text', ctx !! (S (S i)) <> Some (ToolResult id' text'))
  /\ (forall i id text, ctx !! i = Some (ToolResult id text) ->
     exists j tc,
       i = S j /\ ctx !! j = Some (ToolRequest [tc]) /\ tc_id tc = id).

(** The same, as a left-to-right scan that remembers the invocation still
    waiting for its outcome. *)
Fixpoint scan (pending : option tool_call) (ctx : list turn) : bool :=
  match ctx with
  | [] =>
      match pending with
      | None => true
      | Some _ => false
      end
  | t :: rest =>
      match pending, t with
      | None, Msg _ _ => scan None rest
      | None, ToolRequest [tc] => scan (Some tc) rest
      | Some tc, ToolResult id _ => bool_decide (id = tc_id tc) && scan None rest
      | _, _ => false
      end
  end.

(** Successive engine calls of one request: each context is the one
    before it, followed by the first invocation of the reply to that one,
    alone in its turn, and by the outcome of that invocation. *)
Fixpoint chained (xs : list (list turn * res message)) : Prop :=
  match xs with
  | (ctx1, reply1) :: (((ctx2, _) :: _) as later) =>
      (exists m tc others text,
         reply1 = Ok m
         /\ msg_tool_calls m = tc :: others
         /\ ctx2 = ctx1 ++ [ToolRequest [tc]; ToolResult (tc_id tc) text])
      /\ chained later
  | _ => True
  end.

(** An engine call that was answered with at least one invocation. *)
Definition asked_for_tool (x : list turn * res message) : Prop :=
  exists m tc rest, snd x = Ok m /\ msg_tool_calls m = tc :: rest.

Section Runs.
Context {E : Type}.
Variable create_chat_completion : E -> list turn -> E * res message.
Variable identify_material : pyval -> pyval -> pyval -> res pyval.
Variable json_loads : string -> res pyval.
Variable json_dumps : pyval -> res string.

(** The state right after an engine call was made and logged. *)
Definition called {H} (w : world E H) (messages : list turn) (llm' : E)
    (reply : res message) : world E H :=
  World llm' (history w) (exchanges w ++ [(messages, reply)]) (invocations w).

(** The runs of [DemoLlm.tool_loop], one rule per way an iteration goes. *)
Inductive run : nat -> list turn -> world E (list turn)
    -> res loop_exit -> world E (list turn) -> Prop :=
| run_exhausted messages w :
    run 0 messages w (Ok Exhausted) w
| run_engine_fault n messages w llm' e :
    create_chat_completion (llm w) messages = (llm', Raise e) ->
    run (S n) messages w (Raise e) (called w messages llm' (Raise e))
| run_answer n messages w llm' m :
    create_chat_completion (llm w) messages = (llm', Ok m) ->
    msg_tool_calls m = [] ->
    run (S n) messages w (Ok (Returned (msg_content m))) (called w messages llm' (Ok m))
| run_parse_fault n messages w llm' m tc rest e :
    create_chat_completion (llm w) messages = (llm', Ok m) ->
    msg_tool_calls m = tc :: rest ->
    json_loads (fn_arguments (tc_function tc)) = Raise e ->
    run (S n) messages w (Raise e) (called w messages llm' (Ok m))
| run_dispatch_fault n messages w llm' m tc rest tool_args e w1 :
    create_chat_completion (llm w) messages = (llm', Ok m) ->
    msg_tool_calls m = tc :: rest ->
    json_loads (fn_arguments (tc_function tc)) = Ok tool_args ->
    DemoTools.execute_tool identify_material json_dumps
      (fn_name (tc_function tc)) tool_args (called w messages llm' (Ok m))
    = (Raise e, w1) ->
    run (S n) messages w (Raise e) w1
| run_cycle n messages w llm' m tc rest tool_args tool_result w1 r w' :
    create_chat_completion (llm w) messages = (llm', Ok m) ->
    msg_tool_calls m = tc :: rest ->
    json_loads (fn_arguments (tc_function tc)) = Ok tool_args ->
    DemoTools.execute_tool identify_material json_dumps
      (fn_name (tc_function tc)) tool_args (called w messages llm' (Ok m))
    = (Ok tool_result, w1) ->
    run n (messages ++ [ToolRequest [tc]; ToolResult (tc_id tc) tool_result]) w1 r w' ->
    run (S n) messages w r w'.

(** The run of the loop inside [chat user_message]: three iterations from
    the context built after the user's turn was stored. *)
Definition chat_loop (user_message : string) (w : world E (list turn))
  : res loop_exit * world E (list turn) :=
  let w1 := snd (DemoLlm.history_append (Msg user (Some user_message)) w) in
  DemoLlm.tool_loop create_chat_completion identify_material json_loads json_dumps
    3 ([Msg system (Some DemoLlm.SYSTEM_PROMPT)] ++ history w1) w1.

(** The run of the loop inside [get_response prompt], called by the page
    script after it stored the user's turn. *)
Definition page_loop (prompt : string) (w : world E (list StreamlitDemo.stored_message))
  : res (loop_exit * list StreamlitDemo.tool_call_info)
    * world E (list StreamlitDemo.stored_message) :=
  let w1 :=
    snd (StreamlitDemo.messages_append (StreamlitDemo.StoredMessage user (Some prompt) []) w) in
  StreamlitDemo.tool_loop create_chat_completion identify_material json_loads json_dumps
    3 ([Msg system (Some StreamlitDemo.SYSTEM_PROMPT)]
       ++ map (fun msg => Msg (StreamlitDemo.sm_role msg) (StreamlitDemo.sm_content msg))
            (List.filter StreamlitDemo.is_user_or_assistant (history w1))
       ++ [Msg user (Some prompt)]) [] w1.

End Runs.
End Notions.

(** ** Test doubles for the collaborators, used by the examples *)

Module Doubles.
Import Py Protocol Runtime.

(** A scripted engine: its state is the list of replies still to give. *)
Definition scripted_completion (script : list (res message)) (messages : list turn)
  : list (res message) * res message :=
  match script with
  | reply :: rest => (rest, reply)
  | [] => ([], Raise (Exception "RuntimeError" "no reply left in the script"))
  end.

(** A classifier that knows ceria and wants numbers. *)
Definition classify (peak_1 peak_2 formation_energy : pyval) : res pyval :=
  match peak_1, peak_2, formation_energy with
  | PInt 465, PInt 610, PFloat _ => Ok (PStr "Ceria (CeO2), confidence 0.97")
  | (PInt _ | PFloat _), (PInt _ | PFloat _), (PInt _ | PFloat _) =>
      Ok (PStr "Unknown material")
  | _, _, _ => Raise (Exception "ValueError" "features must be numbers")
  end.

(** The double quote character. *)
Definition q : string := String (Ascii.ascii_of_nat 34) EmptyString.

(** [{"peak_1": 465, "peak_2": 610, "formation_energy": -11.2}], as text
    and as the dictionary it denotes (the smoke test of [demo_tools.py]). *)
Definition ceria_text : string :=
  "{" +:+ q +:+ "peak_1" +:+ q +:+ ": 465, " +:+ q +:+ "peak_2" +:+ q +:+ ": 610, "
  +:+ q +:+ "formation_energy" +:+ q +:+ ": -11.2}".

Definition ceria_args : gmap string pyval := DemoTools.test_args.

(** [{"peak_1": 465, "peak_2": 610}]: the formation energy is left out. *)
Definition two_peaks_text : string :=
  "{" +:+ q +:+ "peak_1" +:+ q +:+ ": 465, " +:+ q +:+ "peak_2" +:+ q +:+ ": 610}".

Definition two_peaks_args : gmap string pyval :=
  <["peak_1" := PInt 465]> (<["peak_2" := PInt 610]> ∅).

(** A peak given as text, which the classifier double rejects. *)
Definition text_peak_args : gmap string pyval :=
  <["peak_1" := PStr "465 cm^-1"]> ceria_args.

(** The same as [ceria_args] with a key the tool does not know. *)
Definition ceria_args_extra : gmap string pyval :=
  <["operator" := PStr "nj"]> ceria_args.

(** Text that is not JSON. *)
Definition broken_text : string := "{bad".

(** A string between double quotes, with a backslash before each double
    quote and each backslash in it. *)
Fixpoint escape (s : string) : string :=
  match s with
  | EmptyString => EmptyString
  | String c rest =>
      if Ascii.eqb c (Ascii.ascii_of_nat 34) || Ascii.eqb c (Ascii.ascii_of_nat 92)
      then String (Ascii.ascii_of_nat 92) (String c (escape rest))
      else String c (escape rest)
  end.

Definition quoted (s : string) : string := q +:+ escape s +:+ q.

(** What [int.__repr__] raises on a number of more than 4300 digits. *)
Definition digits_error : exn :=
  Exception "ValueError"
    "Exceeds the limit (4300 digits) for integer string conversion; use sys.set_int_max_str_digits() to increase the limit".

(** [json.dumps] on the two outcome dictionaries: a success around a string
    or an integer, and a failure.  An integer of more than 4300 digits makes
    it raise, as in Python; a value outside this table is treated as one
    that cannot be serialised. *)
Definition dumps (v : pyval) : res string :=
  match v with
  | PDict d =>
      match d !! "success", d !! "result", d !! "error" with
      | Some (PBool true), Some (PStr r), _ =>
          Ok ("{" +:+ q +:+ "success" +:+ q +:+ ": true, "
              +:+ q +:+ "result" +:+ q +:+ ": " +:+ quoted r +:+ "}")
      | Some (PBool true), Some (PInt z), _ =>
          if bool_decide (10 ^ 4300 <= Z.abs z)%Z then Raise digits_error
          else
            Ok ("{" +:+ q +:+ "success" +:+ q +:+ ": true, "
                +:+ q +:+ "result" +:+ q +:+ ": " +:+ pretty z +:+ "}")
      | Some (PBool false), _, Some (PStr e) =>
          Ok ("{" +:+ q +:+ "success" +:+ q +:+ ": false, "
              +:+ q +:+ "error" +:+ q +:+ ": " +:+ quoted e +:+ "}")
      | _, _, _ => Raise (Exception "TypeError" "Object is not JSON serializable")
      end
  | _ => Raise (Exception "TypeError" "Object is not JSON serializable")
  end.

(** [{"success": true, "result": "Ceria (CeO2), confidence 0.97"}] *)
Definition ceria_outcome_text : string :=
  "{" +:+ q +:+ "success" +:+ q +:+ ": true, "
  +:+ q +:+ "result" +:+ q +:+ ": " +:+ q +:+ "Ceria (CeO2), confidence 0.97" +:+ q +:+ "}".

(** [json.loads] on the texts of the examples: the three payloads above and
    the outcome the dispatcher serialises for ceria.  Every other text is
    outside the table and is treated as the broken one. *)
Definition loads (text : string) : res pyval :=
  if bool_decide (text = ceria_text) then Ok (PDict ceria_args)
  else if bool_decide (text = two_peaks_text) then Ok (PDict two_peaks_args)
  else if bool_decide (text = ceria_outcome_text)
  then Ok (PDict (<["success" := PBool true]>
                    (<["result" := PStr "Ceria (CeO2), confidence 0.97"]> ∅)))
  else
    Raise (Exception "JSONDecodeError"
             "Expecting property name enclosed in double quotes: line 1 column 2 (char 1)").

(** A classifier whose result is a number too long to be written out, and
    one that is interrupted from the keyboard while it runs. *)
Definition long_number_classifier (peak_1 peak_2 formation_energy : pyval) : res pyval :=
  Ok (PInt (10 ^ 4300)).

Definition interrupted_classifier (peak_1 peak_2 formation_energy : pyval) : res pyval :=
  Raise (BaseOnly "KeyboardInterrupt" "").

(** Engine replies: a request for the tool with a given payload, and a
    direct answer. *)
Definition asks (id payload : string) : res message :=
  Ok (Message None [ToolCall id (FunctionCall "identify_material" payload)]).

Definition answers (text : string) : res message :=
  Ok (Message (Some text) []).

(** The reply that asks for the tool with the broken payload. *)
Definition broken_reply : message :=
  Message None [ToolCall "call_1" (FunctionCall "identify_material" broken_text)].

Definition decode_error : exn :=
  Exception "JSONDecodeError"
    "Expecting property name enclosed in double quotes: line 1 column 2 (char 1)".

Definition timeout_error : exn := Exception "TimeoutError" "the engine timed out".

(** Scripts: a direct answer after two tool cycles; three requests in a
    row; a broken payload; an engine that fails in its second call. *)
Definition two_cycles : list (res message) :=
  [asks "call_1" ceria_text; asks "call_2" ceria_text; answers "This is ceria."].

Definition three_requests : list (res message) :=
  [asks "call_1" ceria_text; asks "call_2" ceria_text; asks "call_3" ceria_text].

Definition broken_request : list (res message) :=
  [Ok broken_reply; answers "This is ceria."].

Definition failing_engine : list (res message) :=
  [asks "call_1" ceria_text; Raise timeout_error].

(** A reply that asks for two invocations at once. *)
Definition two_at_once : list (res message) :=
  [Ok (Message None
         [ToolCall "call_1" (FunctionCall "identify_material" ceria_text);
          ToolCall "call_2" (FunctionCall "identify_material" two_peaks_text)]);
   answers "This is ceria."].

Definition question : string :=
  "Identify a material with peaks at 465 and 610 cm^-1, formation energy -11.2 eV/atom".

(** A fresh command-line session and a fresh page around a script. *)
Definition cli (script : list (res message)) : world (list (res message)) (list turn) :=
  DemoLlm.init script.

Definition page (script : list (res message))
  : world (list (res message)) (list StreamlitDemo.stored_message) :=
  World script [] [] [].

End Doubles.

(** ** demo_llm.py: the command loop *)

Module DemoLlmMain.
Import Py Protocol Runtime.

(** What successive calls of [input("You: ")] give: a line that was typed, or
    a Ctrl-C at the prompt.  When the list is used up the terminal is closed
    and [input] raises [EOFError]. *)
Inductive keyboard : Type :=
| Typed (line : string)
| CtrlC.

(** Whether [except KeyboardInterrupt] and [except EOFError] take an
    exception (a class stands for itself here, not for subclasses a
    program might add). *)
Definition is_keyboard_interrupt (e : exn) : bool :=
  match e with
  | BaseOnly cls _ => bool_decide (cls = "KeyboardInterrupt")
  | KeyError _ | Exception _ _ => false
  end.

Definition is_eof_error (e : exn) : bool :=
  match e with
  | Exception cls _ => bool_decide (cls = "EOFError")
  | KeyError _ | BaseOnly _ _ => false
  end.

Section Main.
Context {E : Type}.
Variable create_chat_completion : E -> list turn -> E * res message.
Variable identify_material : pyval -> pyval -> pyval -> res pyval.
Variable json_loads : string -> res pyval.
Variable json_dumps : pyval -> res string.
(** [str.strip] and [str.lower] *)
Variable strip : string -> string.
Variable lower : string -> string.

(** The [while True] loop of [main], one iteration per key; it returns the
    keys it left unread.  What the loop prints is left out.  The [try]
    encloses the whole iteration, [crucible.chat] included: on a
    [KeyboardInterrupt], from [input] or from [chat], the loop goes on with
    the next key; on an [EOFError] it ends; anything else leaves [main]. *)
Fixpoint main_loop (keys : list keyboard) : M (world E (list turn)) (list keyboard) :=
  match keys with
  | [] => ret []
  | CtrlC :: rest => main_loop rest
  | Typed line :: rest =>
      let user_input := strip line in
      if bool_decide (user_input = "") then main_loop rest
      else if bool_decide (lower user_input = "exit") || bool_decide (lower user_input = "quit")
      then ret rest
      else if bool_decide (lower user_input = "clear")
      then (DemoLlm.clear_history;; main_loop rest)
      else if bool_decide (lower user_input = "help") then main_loop rest
      else
        fun w =>
          match DemoLlm.chat create_chat_completion identify_material json_loads json_dumps
                  user_input w with
          | (Ok response, w') => main_loop rest w'
          | (Raise e, w') =>
              if is_keyboard_interrupt e then main_loop rest w'
              else if is_eof_error e then (Ok rest, w')
              else (Raise e, w')
          end
  end.

(** How [main] ends: by returning before a session exists; with an
    exception of the loader that [except Exception] does not take; or as the
    loop of its session ended. *)
Inductive main_exit : Type :=
| NoSession
| LoadRaised (e : exn)
| Session (r : res (list keyboard)) (w : world E (list turn)).

(** [main]: no session when the model file is missing or the engine does
    not load ([load] is what [CrucibleChat(MODEL_PATH)] does); otherwise the
    loop on a fresh session. *)
Definition main (model_exists : bool) (load : res E) (keys : list keyboard)
  : main_exit :=
  if model_exists then
    match load with
    | Ok engine =>
        let '(r, w) := main_loop keys (DemoLlm.init engine) in Session r w
    | Raise e => if is_exception e then NoSession else LoadRaised e
    end
  else NoSession.

End Main.
End DemoLlmMain.

(** ** streamlit_demo.py: the rest of the page script *)

Module StreamlitPage.
Import Py Protocol Runtime.

Definition EXAMPLE_QUERIES : list string :=
  ["Identify material with peaks at 465 and 610 cm⁻¹, formation energy -11.2 eV/atom";
   "What material has Raman peaks at 144 and 399?";
   "I have peaks at 520 and 950 with formation energy 0.0";
   "What is Raman spectroscopy?";
   "Tell me about Ceria"].

(** What the visitor did to start a run of the script: pressed the button
    [Example i], pressed [Clear Chat], submitted a prompt, or nothing. *)
Inductive widget : Type :=
| ExampleButton (i : nat)
| ClearButton
| ChatInput (prompt : string)
| Nothing.

(** [len(st.session_state.messages)] *)
Definition messages_metric (stored : list StreamlitDemo.stored_message) : nat :=
  length stored.

(** [sum(1 for m in st.session_state.messages if m.get("tool_calls"))] *)
Definition tool_calls_metric (stored : list StreamlitDemo.stored_message) : nat :=
  length
    (List.filter
       (fun m => match StreamlitDemo.sm_tool_calls m with [] => false | _ :: _ => true end)
       stored).

Section Script.
Context {E : Type}.
Variable create_chat_completion : E -> list turn -> E * res message.
Variable identify_material : pyval -> pyval -> pyval -> res pyval.
Variable json_loads : string -> res pyval.
Variable json_dumps : pyval -> res string.

(** The two numbers of the footer, [Messages] and [Tool Calls]. *)
Definition footer : M (world E (list StreamlitDemo.stored_message)) (nat * nat) :=
  stored <- get_history;;
  ret (messages_metric stored, tool_calls_metric stored).

(** One visit of the page, down to the footer, whose two numbers it
    returns.  A pressed button changes the stored messages and calls
    [st.rerun()], which starts the script again with no widget active; the
    buttons are numbered from 1; an empty prompt does not pass the [if]. *)
Definition script (w : widget) : M (world E (list StreamlitDemo.stored_message)) (nat * nat) :=
  match w with
  | ExampleButton (S k) =>
      match EXAMPLE_QUERIES !! k with
      | Some query =>
          StreamlitDemo.messages_append (StreamlitDemo.StoredMessage user (Some query) []);;
          footer
      | None => footer
      end
  | ExampleButton O => footer
  | ClearButton => set_history [];; footer
  | ChatInput prompt =>
      if bool_decide (prompt = "") then footer
      else
        (StreamlitDemo.on_chat_input create_chat_completion identify_material
           json_loads json_dumps prompt;;
         footer)
  | Nothing => footer
  end.

End Script.
End StreamlitPage.

(** ** What a call leaves behind: notions for the statements *)

Module Observations.
Import Py Protocol Runtime.

(** Every stored turn is a user's or an assistant's, and every assistant's
    turn stands right after a user's. *)
Definition answers_follow_questions (h : list turn) : Prop :=
  (forall t, In t h -> exists r c, t = Msg r c /\ (r = user \/ r = assistant))
  /\ (forall i c, h !! i = Some (Msg assistant c) ->
      exists j q, i = S j /\ h !! j = Some (Msg user q)).

(** The name of the first invocation of a reply, when it has one. *)
Definition first_name (x : list turn * res message) : option string :=
  match snd x with
  | Ok m =>
      match msg_tool_calls m with
      | tc :: _ => Some (fn_name (tc_function tc))
      | [] => None
      end
  | Raise _ => None
  end.

(** The error text a failure outcome is expected to carry for an exception
    the dispatcher catches: the message of the exception, after the words
    [Missing argument: ] when it is a [KeyError]. *)
Definition handler_text (e : exn) : string :=
  match e with
  | KeyError msg => "Missing argument: " +:+ msg
  | Exception _ msg => msg
  | BaseOnly _ msg => msg
  end.

Section Dispatch.
Variable identify_material : pyval -> pyval -> pyval -> res pyval.
Variable json_loads : string -> res pyval.
Variable json_dumps : pyval -> res string.

(** [json.dumps] returns on every failure dictionary: a dictionary of a
    boolean and a string holds nothing it cannot write. *)
Definition serialises_failures : Prop :=
  forall error, exists text,
    json_dumps (PDict (<["success" := PBool false]> (<["error" := PStr error]> ∅)))
    = Ok text.

(** What becomes of an exception raised under the [try] of
    [execute_tool]: the serialised failure for an instance of [Exception],
    the exception itself otherwise. *)
Definition caught (e : exn) : res string :=
  if is_exception e then json_dumps (DemoTools.failure (handler_text e))
  else Raise e.

(** The outcome for a tool name and parsed arguments: the serialised
    dictionary, or the exception that leaves the dispatcher. *)
Definition outcome (tool_name : string) (arguments : pyval) : res string :=
  if bool_decide (tool_name <> "identify_material") then
    json_dumps (DemoTools.failure ("Unknown tool: " +:+ tool_name))
  else
    match getitem arguments "peak_1" with
    | Raise e => caught e
    | Ok p1 =>
        match getitem arguments "peak_2" with
        | Raise e => caught e
        | Ok p2 =>
            match getitem arguments "formation_energy" with
            | Raise e => caught e
            | Ok fe =>
                match identify_material p1 p2 fe with
                | Ok v =>
                    match json_dumps (DemoTools.success v) with
                    | Ok text => Ok text
                    | Raise e => caught e
                    end
                | Raise e => caught e
                end
            end
        end
    end.

(** The classifier calls a dispatch makes: one, when the name is the
    registered one and the three subscripts succeed; none otherwise. *)
Definition calls_of (tool_name : string) (arguments : pyval) : list invocation :=
  if bool_decide (tool_name <> "identify_material") then []
  else
    match getitem arguments "peak_1", getitem arguments "peak_2",
          getitem arguments "formation_energy" with
    | Ok p1, Ok p2, Ok fe => [(p1, p2, fe)]
    | _, _, _ => []
    end.

(** The classifier calls that a list of engine exchanges asks for: those of
    the first invocation of each reply, when its arguments parse. *)
Definition asked_invocations (xs : list (list turn * res message)) : list invocation :=
  flat_map
    (fun x =>
       match snd x with
       | Ok m =>
           match msg_tool_calls m with
           | tc :: _ =>
               match json_loads (fn_arguments (tc_function tc)) with
               | Ok tool_args => calls_of (fn_name (tc_function tc)) tool_args
               | Raise _ => []
               end
           | [] => []
           end
       | Raise _ => []
       end)
    xs.

(** The engine exchanges of one request, from a first context [ctx] on:
    each context after the first is the one before it, followed by the first
    invocation of the reply, alone in its turn, and by the serialised outcome
    of dispatching it with its parsed arguments. *)
Fixpoint follows (ctx : list turn) (xs : list (list turn * res message)) : Prop :=
  match xs with
  | [] => True
  | (ctx1, reply1) :: later =>
      ctx1 = ctx
      /\ (later = []
          \/ exists m tc others tool_args,
               reply1 = Ok m
               /\ msg_tool_calls m = tc :: others
               /\ json_loads (fn_arguments (tc_function tc)) = Ok tool_args
               /\ exists tool_result,
                    outcome (fn_name (tc_function tc)) tool_args = Ok tool_result
                    /\ follows
                         (ctx ++ [ToolRequest [tc]; ToolResult (tc_id tc) tool_result])
                         later)
  end.

(** How the loop ends after an exchange that turns out to be its last: the
    engine's fault; the direct answer; the parse error of the first
    invocation's arguments; the exception that left the dispatcher; or,
    after a dispatch that returned, no iteration left. *)
Definition verdict (x : list turn * res message) : res loop_exit :=
  match snd x with
  | Raise e => Raise e
  | Ok m =>
      match msg_tool_calls m with
      | [] => Ok (Returned (msg_content m))
      | tc :: _ =>
          match json_loads (fn_arguments (tc_function tc)) with
          | Raise e => Raise e
          | Ok tool_args =>
              match outcome (fn_name (tc_function tc)) tool_args with
              | Raise e => Raise e
              | Ok _ => Ok Exhausted
              end
          end
      end
  end.

End Dispatch.
End Observations.

(** ** The keys of a terminal session, by what the loop does with them *)

Module Commands.
Import DemoLlmMain.

Section Lines.
(** [str.strip] and [str.lower] *)
Variable strip : string -> string.
Variable lower : string -> string.

(** A line that is, but for blanks around it and for its case, [exit] or
    [quit]. *)
Definition leaves (line : string) : Prop :=
  strip line <> "" /\ (lower (strip line) = "exit" \/ lower (strip line) = "quit").

(** A key the loop handles on its own and goes on: a Ctrl-C at the
    prompt, a blank line, [clear] or [help]. *)
Definition silent (k : keyboard) : Prop :=
  match k with
  | CtrlC => True
  | Typed line =>
      strip line = ""
      \/ (lower (strip line) <> "exit"
          /\ lower (strip line) <> "quit"
          /\ (lower (strip line) = "clear" \/ lower (strip line) = "help"))
  end.

(** A line the loop passes to [chat]. *)
Definition asks_engine (line : string) : Prop :=
  strip line <> ""
  /\ lower (strip line) <> "exit" /\ lower (strip line) <> "quit"
  /\ lower (strip line) <> "clear" /\ lower (strip line) <> "help".

End Lines.
End Commands.

(** ** More test doubles *)

Module MoreDoubles.
Import Py Protocol Runtime.

(** [str.strip] and [str.lower] on ASCII text. *)
Definition is_space (c : Ascii.ascii) : bool :=
  let n := Ascii.nat_of_ascii c in
  Nat.eqb n 32 || (Nat.leb 9 n && Nat.leb n 13).

Fixpoint lstrip (s : string) : string :=
  match s with
  | String c rest => if is_space c then lstrip rest else s
  | EmptyString => EmptyString
  end.

Definition strip (s : string) : string :=
  String.rev (lstrip (String.rev (lstrip s))).

Definition lower_char (c : Ascii.ascii) : Ascii.ascii :=
  let n := Ascii.nat_of_ascii c in
  if Nat.leb 65 n && Nat.leb n 90 then Ascii.ascii_of_nat (n + 32) else c.

Fixpoint lower (s : string) : string :=
  match s with
  | String c rest => String (lower_char c) (lower rest)
  | EmptyString => EmptyString
  end.

(** A terminal session of commands only, with input left after [Exit]. *)
Definition commands_only : list DemoLlmMain.keyboard :=
  [DemoLlmMain.Typed "   "; DemoLlmMain.CtrlC; DemoLlmMain.Typed "help";
   DemoLlmMain.Typed " Clear "; DemoLlmMain.Typed "  EXIT"; DemoLlmMain.Typed "never read"].

(** An engine that fails at its first call, and one that is interrupted
    from the keyboard during its first call. *)
Definition dead_engine : list (res message) := [Raise Doubles.timeout_error].

Definition interrupted_engine : list (res message) :=
  [Raise (BaseOnly "KeyboardInterrupt" ""); Doubles.answers "Ceria is cerium dioxide."].

(** An earlier answered turn in the history of a command-line session. *)
Definition earlier_cli : list turn :=
  [Msg user (Some "Tell me about Ceria"); Msg assistant (Some "Ceria is cerium dioxide.")].

(** An earlier answered turn in the store of a page. *)
Definition earlier_page : list StreamlitDemo.stored_message :=
  [StreamlitDemo.StoredMessage user (Some "Tell me about Ceria") [];
   StreamlitDemo.StoredMessage assistant (Some "Ceria is cerium dioxide.") []].

End MoreDoubles.

(** * Properties *)

Import Py Protocol Runtime Notions.

(** ** The dispatcher *)

Section DispatcherFacts.
Context {E H : Type}.
Variable identify_material : pyval -> pyval -> pyval -> res pyval.
Variable json_dumps : pyval -> res string.

#[local] Abbreviation execute_tool := (DemoTools.execute_tool (E:=E) (H:=H) identify_material json_dumps).
#[local] Abbreviation success := DemoTools.success.
#[local] Abbreviation failure := DemoTools.failure.
#[local] Abbreviation handler_text := Observations.handler_text.
#[local] Abbreviation caught := (Observations.caught json_dumps).
#[local] Abbreviation outcome := (Observations.outcome identify_material json_dumps).
#[local] Abbreviation calls_of := Observations.calls_of.
#[local] Abbreviation serialises_failures := (Observations.serialises_failures json_dumps).

Lemma registered_name_passes :
  bool_decide ("identify_material" <> "identify_material") = false.
Proof. apply bool_decide_eq_false_2. intros Hne. apply Hne. reflexivity. Qed.

Lemma world_eta (w : world E H) :
  World (llm w) (history w) (exchanges w) (invocations w) = w.
Proof. destruct w. reflexivity. Qed.

(** A subscript raises instances of [Exception] only. *)
Lemma getitem_raises obj key e : getitem obj key = Raise e -> is_exception e = true.
Proof.
  destruct obj; cbn; try (intros [= <-]; reflexivity).
  destruct (_ !! key); [discriminate|]. intros [= <-]. reflexivity.
Qed.

(** What [execute_tool] gives back and the calls it makes depend on the
    name and the arguments alone. *)
Lemma execute_tool_pure tool_name arguments (w : world E H) :
  execute_tool tool_name arguments w
  = (outcome tool_name arguments,
     World (llm w) (history w) (exchanges w)
       (invocations w ++ calls_of tool_name arguments)).
Proof.
  unfold DemoTools.execute_tool, Observations.outcome, Observations.calls_of.
  destruct (bool_decide (tool_name <> "identify_material")).
  - rewrite app_nil_r, world_eta. reflexivity.
  - unfold try_except, bind, lift, ret, raise, DemoTools.call_identify_material,
      log_invocation.
    destruct (getitem arguments "peak_1") as [p1|[m|c m|c m]];
      [|cbn; rewrite app_nil_r, world_eta; reflexivity..].
    destruct (getitem arguments "peak_2") as [p2|[m|c m|c m]];
      [|cbn; rewrite app_nil_r, world_eta; reflexivity..].
    destruct (getitem arguments "formation_energy") as [fe|[m|c m|c m]];
      [|cbn; rewrite app_nil_r, world_eta; reflexivity..].
    cbn. destruct (identify_material p1 p2 fe) as [v|[m|c m|c m]]; [|reflexivity..].
    destruct (json_dumps (success v)) as [text|[m|c m|c m]]; reflexivity.
Qed.

Lemma execute_tool_unknown tool_name arguments (w : world E H) :
  tool_name <> "identify_material" ->
  execute_tool tool_name arguments w
  = (json_dumps (failure ("Unknown tool: " +:+ tool_name)), w).
Proof.
  intros Hne. unfold DemoTools.execute_tool.
  rewrite bool_decide_eq_true_2 by exact Hne. reflexivity.
Qed.

(** With the registered name, the three subscripts are evaluated from left
    to right; when they succeed the classifier is called once, and what it
    returns or raises, and then what [json.dumps] does with the success
    dictionary, decides the result. *)
Lemma execute_tool_calls arguments p1 p2 fe (w : world E H) :
  getitem arguments "peak_1" = Ok p1 ->
  getitem arguments "peak_2" = Ok p2 ->
  getitem arguments "formation_energy" = Ok fe ->
  execute_tool "identify_material" arguments w
  = (match identify_material p1 p2 fe with
     | Ok result =>
         match json_dumps (success result) with
         | Ok text => Ok text
         | Raise e => caught e
         end
     | Raise e => caught e
     end,
     World (llm w) (history w) (exchanges w) (invocations w ++ [(p1, p2, fe)])).
Proof.
  intros H1 H2 H3. rewrite execute_tool_pure.
  unfold Observations.outcome, Observations.calls_of.
  rewrite registered_name_passes, H1, H2, H3. reflexivity.
Qed.

(** When one of the subscripts raises, the classifier is not reached. *)
Lemma execute_tool_subscript_raises arguments (w : world E H) :
  (exists e, getitem arguments "peak_1" = Raise e)
  \/ (exists e, getitem arguments "peak_2" = Raise e)
  \/ (exists e, getitem arguments "formation_energy" = Raise e) ->
  snd (execute_tool "identify_material" arguments w) = w.
Proof.
  intros Hraise. rewrite execute_tool_pure. unfold Observations.calls_of.
  rewrite registered_name_passes. cbn [snd].
  destruct (getitem arguments "peak_1") as [p1|e1];
    [|rewrite app_nil_r; apply world_eta].
  destruct (getitem arguments "peak_2") as [p2|e2];
    [|rewrite app_nil_r; apply world_eta].
  destruct (getitem arguments "formation_energy") as [fe|e3];
    [|rewrite app_nil_r; apply world_eta].
  destruct Hraise as [[e He]|[[e He]|[e He]]]; discriminate.
Qed.

(** The dispatcher touches neither the engine nor the history nor the log
    of engine calls, and calls the classifier at most once. *)
Lemma execute_tool_frame tool_name arguments (w : world E H) r w' :
  execute_tool tool_name arguments w = (r, w') ->
  llm w' = llm w /\ history w' = history w /\ exchanges w' = exchanges w
  /\ exists calls, invocations w' = invocations w ++ calls /\ length calls <= 1.
Proof.
  rewrite execute_tool_pure. intros [= _ <-]. cbn. repeat split.
  exists (calls_of tool_name arguments). split; [reflexivity|].
  unfold Observations.calls_of. repeat case_match; cbn; lia.
Qed.

(** An exception that leaves the dispatcher is one from outside
    [Exception], or one [json.dumps] raised on a failure dictionary. *)
Lemma outcome_raises tool_name arguments e :
  outcome tool_name arguments = Raise e ->
  (exists cls msg, e = BaseOnly cls msg)
  \/ exists error,
       json_dumps (PDict (<["success" := PBool false]> (<["error" := PStr error]> ∅)))
       = Raise e.
Proof.
  assert (Hcaught : forall e0, caught e0 = Raise e ->
            (exists cls msg, e = BaseOnly cls msg)
            \/ exists error,
                 json_dumps
                   (PDict (<["success" := PBool false]> (<["error" := PStr error]> ∅)))
                 = Raise e).
  { intros [m|c m|c m]; cbn; [eauto..|]. intros [= <-]. eauto. }
  unfold Observations.outcome. repeat case_match; eauto; discriminate.
Qed.

(** Arguments that parsed to something other than a dictionary: the first
    subscript raises a [TypeError], which the second handler turns into a
    failure outcome; the classifier is not called. *)
Lemma execute_tool_not_a_dict arguments (w : world E H) :
  (forall d, arguments <> PDict d) ->
  exists msg,
    getitem arguments "peak_1" = Raise (Exception "TypeError" msg)
    /\ execute_tool "identify_material" arguments w = (json_dumps (failure msg), w).
Proof.
  intros Hnot.
  unfold DemoTools.execute_tool, try_except, bind, lift, ret.
  rewrite registered_name_passes.
  destruct arguments; cbn; eauto. destruct (Hnot d eq_refl).
Qed.

Lemma contains_suffix (before needle : string) : contains (before +:+ needle) needle.
Proof.
  exists before, "". f_equal. induction needle as [|c s IH]; [reflexivity|].
  change (String c s +:+ "") with (String c (s +:+ "")). rewrite <- IH. reflexivity.
Qed.

Lemma contains_self (needle : string) : contains needle needle.
Proof. apply (contains_suffix "" needle). Qed.

(** C4. A tool name other than the registered [identify_material], with
    any arguments: what comes back is what [json.dumps] gives on the
    dictionary [{"success": False, "error": "Unknown tool: <name>"}], whose
    error text contains the name; it is a text, as [json.dumps] returns on
    such a dictionary.  The classifier is not called: the state, log of
    classifier calls included, is as it was. *)
Theorem unknown_tool_is_refused tool_name arguments (w : world E H) :
  tool_name <> "identify_material" ->
  exists error,
    error = "Unknown tool: " +:+ tool_name
    /\ contains error tool_name
    /\ execute_tool tool_name arguments w
       = (json_dumps (PDict (<["success" := PBool false]> (<["error" := PStr error]> ∅))),
          w)
    /\ (serialises_failures ->
        exists text,
          json_dumps (PDict (<["success" := PBool false]> (<["error" := PStr error]> ∅)))
          = Ok text
          /\ execute_tool tool_name arguments w = (Ok text, w))
    /\ invocations (snd (execute_tool tool_name arguments w)) = invocations w.
Proof.
  intros Hne. exists ("Unknown tool: " +:+ tool_name).
  rewrite (execute_tool_unknown tool_name arguments w Hne). unfold DemoTools.failure.
  split; [reflexivity|]. split; [apply contains_suffix|]. split; [reflexivity|].
  split; [|reflexivity].
  intros Hdumps. destruct (Hdumps ("Unknown tool: " +:+ tool_name)) as [text Htext].
  exists text. rewrite Htext. split; reflexivity.
Qed.

(** C5. A dictionary that lacks one of the required keys: what comes back
    is what [json.dumps] gives on the dictionary
    [{"success": False, "error": "Missing argument: '<key>'"}] for a required
    key the dictionary lacks (the first one in the order [peak_1], [peak_2],
    [formation_energy]); it is a text, as [json.dumps] returns on such a
    dictionary.  The classifier is not called. *)
Theorem missing_key_fails_fast (arguments : gmap string pyval) (w : world E H) :
  (exists key, In key ["peak_1"; "peak_2"; "formation_energy"]
               /\ arguments !! key = None) ->
  exists key error,
    In key ["peak_1"; "peak_2"; "formation_energy"]
    /\ arguments !! key = None
    /\ error = "Missing argument: '" +:+ key +:+ "'"
    /\ contains error key
    /\ execute_tool "identify_material" (PDict arguments) w
       = (json_dumps (PDict (<["success" := PBool false]> (<["error" := PStr error]> ∅))),
          w)
    /\ (serialises_failures ->
        exists text,
          json_dumps (PDict (<["success" := PBool false]> (<["error" := PStr error]> ∅)))
          = Ok text
          /\ execute_tool "identify_material" (PDict arguments) w = (Ok text, w))
    /\ invocations (snd (execute_tool "identify_material" (PDict arguments) w))
       = invocations w.
Proof.
  intros (missing & Hin & Hnone).
  assert (Hfirst : exists key,
            In key ["peak_1"; "peak_2"; "formation_energy"]
            /\ arguments !! key = None
            /\ execute_tool "identify_material" (PDict arguments) w
               = (json_dumps
                    (PDict (<["success" := PBool false]>
                              (<["error" := PStr ("Missing argument: '" +:+ key +:+ "'")]> ∅))),
                  w)).
  { unfold DemoTools.execute_tool, try_except, bind, lift, ret, getitem.
    rewrite registered_name_passes.
    destruct (arguments !! "peak_1") as [p1|] eqn:H1;
      [|exists "peak_1"; cbn; auto 6].
    destruct (arguments !! "peak_2") as [p2|] eqn:H2;
      [|exists "peak_2"; cbn; auto 6].
    destruct (arguments !! "formation_energy") as [fe|] eqn:H3;
      [|exists "formation_energy"; cbn; auto 6].
    cbn in Hin. destruct Hin as [<-|[<-|[<-|[]]]]; congruence. }
  destruct Hfirst as (key & Hkey & Hlacks & Hrun).
  exists key, ("Missing argument: '" +:+ key +:+ "'"). rewrite Hrun.
  split; [exact Hkey|]. split; [exact Hlacks|]. split; [reflexivity|].
  split; [exists "Missing argument: '", "'"; reflexivity|]. split; [reflexivity|].
  split; [|reflexivity].
  intros Hdumps. destruct (Hdumps ("Missing argument: '" +:+ key +:+ "'")) as [text Htext].
  exists text. rewrite Htext. split; reflexivity.
Qed.

(** C6. When the dictionary has the three required keys and the classifier
    returns [v] on their values, the classifier was called once, on those
    values, and [json.dumps] is applied to the dictionary
    [{"success": True, "result": v}] around [v] itself.  The text it returns
    is the result.  When it raises instead, on a [v] it cannot write, the
    handlers take the exception as they take one of the classifier: the
    result is the failure outcome with its message, and an exception from
    outside [Exception] passes.  The test dictionary of the smoke test is
    one case with the three keys. *)
Theorem success_wraps_result (arguments : gmap string pyval) p1 p2 fe v (w : world E H) :
  arguments !! "peak_1" = Some p1 ->
  arguments !! "peak_2" = Some p2 ->
  arguments !! "formation_energy" = Some fe ->
  identify_material p1 p2 fe = Ok v ->
  (forall text,
     json_dumps (PDict (<["success" := PBool true]> (<["result" := v]> ∅))) = Ok text ->
     execute_tool "identify_material" (PDict arguments) w
     = (Ok text,
        World (llm w) (history w) (exchanges w) (invocations w ++ [(p1, p2, fe)])))
  /\ (forall msg,
       json_dumps (PDict (<["success" := PBool true]> (<["result" := v]> ∅)))
       = Raise (KeyError msg) ->
       execute_tool "identify_material" (PDict arguments) w
       = (json_dumps
            (PDict (<["success" := PBool false]>
                      (<["error" := PStr ("Missing argument: " +:+ msg)]> ∅))),
          World (llm w) (history w) (exchanges w) (invocations w ++ [(p1, p2, fe)])))
  /\ (forall cls msg,
       json_dumps (PDict (<["success" := PBool true]> (<["result" := v]> ∅)))
       = Raise (Exception cls msg) ->
       execute_tool "identify_material" (PDict arguments) w
       = (json_dumps (PDict (<["success" := PBool false]> (<["error" := PStr msg]> ∅))),
          World (llm w) (history w) (exchanges w) (invocations w ++ [(p1, p2, fe)])))
  /\ (forall cls msg,
       json_dumps (PDict (<["success" := PBool true]> (<["result" := v]> ∅)))
       = Raise (BaseOnly cls msg) ->
       execute_tool "identify_material" (PDict arguments) w
       = (Raise (BaseOnly cls msg),
          World (llm w) (history w) (exchanges w) (invocations w ++ [(p1, p2, fe)])))
  /\ (forall v' text,
       identify_material (PInt 465) (PInt 610) (PFloat (-11.2)) = Ok v' ->
       json_dumps (PDict (<["success" := PBool true]> (<["result" := v']> ∅))) = Ok text ->
       fst (execute_tool "identify_material" (PDict DemoTools.test_args) w) = Ok text).
Proof.
  intros H1 H2 H3 Hv.
  assert (Hrun := execute_tool_calls (PDict arguments) p1 p2 fe w).
  cbn [getitem] in Hrun. rewrite H1, H2, H3, Hv in Hrun.
  specialize (Hrun eq_refl eq_refl eq_refl). unfold DemoTools.success in Hrun.
  repeat split.
  - intros text Htext. rewrite Hrun, Htext. reflexivity.
  - intros msg Hmsg. rewrite Hrun, Hmsg. reflexivity.
  - intros cls msg Hmsg. rewrite Hrun, Hmsg. reflexivity.
  - intros cls msg Hmsg. rewrite Hrun, Hmsg. reflexivity.
  - intros v' text Hv' Htext.
    rewrite (execute_tool_calls (PDict DemoTools.test_args)
               (PInt 465) (PInt 610) (PFloat (-11.2)) w) by reflexivity.
    rewrite Hv'. unfold DemoTools.success. rewrite Htext. reflexivity.
Qed.

(** C7. When the classifier raises an instance of [Exception], what comes
    back is what [json.dumps] gives on the failure dictionary whose error
    text carries the message of the exception: the message itself, after the
    words [Missing argument: ] when the exception is a [KeyError].  An
    exception from outside [Exception], such as [KeyboardInterrupt], is
    taken by neither handler and leaves the dispatcher.  And whatever the
    tool name and the arguments, an exception that leaves the dispatcher is
    such a one, or one [json.dumps] raised on a failure dictionary. *)
Theorem classifier_exception_becomes_failure arguments p1 p2 fe (w : world E H) :
  getitem arguments "peak_1" = Ok p1 ->
  getitem arguments "peak_2" = Ok p2 ->
  getitem arguments "formation_energy" = Ok fe ->
  (forall msg,
     identify_material p1 p2 fe = Raise (KeyError msg) ->
     exists error,
       error = "Missing argument: " +:+ msg
       /\ contains error msg
       /\ execute_tool "identify_material" arguments w
          = (json_dumps
               (PDict (<["success" := PBool false]> (<["error" := PStr error]> ∅))),
             World (llm w) (history w) (exchanges w) (invocations w ++ [(p1, p2, fe)])))
  /\ (forall cls msg,
       identify_material p1 p2 fe = Raise (Exception cls msg) ->
       execute_tool "identify_material" arguments w
       = (json_dumps (PDict (<["success" := PBool false]> (<["error" := PStr msg]> ∅))),
          World (llm w) (history w) (exchanges w) (invocations w ++ [(p1, p2, fe)])))
  /\ (forall cls msg,
       identify_material p1 p2 fe = Raise (BaseOnly cls msg) ->
       execute_tool "identify_material" arguments w
       = (Raise (BaseOnly cls msg),
          World (llm w) (history w) (exchanges w) (invocations w ++ [(p1, p2, fe)])))
  /\ (forall tool_name' arguments' (w0 : world E H) e,
       fst (execute_tool tool_name' arguments' w0) = Raise e ->
       (exists cls msg, e = BaseOnly cls msg)
       \/ exists error,
            json_dumps (PDict (<["success" := PBool false]> (<["error" := PStr error]> ∅)))
            = Raise e).
Proof.
  intros H1 H2 H3.
  assert (Hrun := execute_tool_calls arguments p1 p2 fe w H1 H2 H3).
  repeat split.
  - intros msg He. exists ("Missing argument: " +:+ msg). rewrite Hrun, He.
    repeat split. apply contains_suffix.
  - intros cls msg He. rewrite Hrun, He. reflexivity.
  - intros cls msg He. rewrite Hrun, He. reflexivity.
  - intros tool_name' arguments' w0 e. rewrite execute_tool_pure. cbn [fst].
    apply outcome_raises.
Qed.

(** C10. The outcome depends only on the tool name and on what the
    dictionary binds to the three required keys: two dictionaries that
    agree on these keys get the same result and leave the same state,
    whatever else they hold. *)
Theorem outcome_depends_on_three_keys tool_name
    (arguments1 arguments2 : gmap string pyval) (w : world E H) :
  (forall key, In key DemoTools.REQUIRED -> arguments1 !! key = arguments2 !! key) ->
  execute_tool tool_name (PDict arguments1) w = execute_tool tool_name (PDict arguments2) w.
Proof.
  intros Hagree.
  assert (Hget : forall key, In key DemoTools.REQUIRED ->
            getitem (PDict arguments1) key = getitem (PDict arguments2) key).
  { intros key Hin. cbn. rewrite (Hagree key Hin). reflexivity. }
  unfold DemoTools.execute_tool.
  destruct (bool_decide (tool_name <> "identify_material")); [reflexivity|].
  unfold try_except, bind, lift.
  rewrite (Hget "peak_1"), (Hget "peak_2"), (Hget "formation_energy") by (cbn; auto).
  reflexivity.
Qed.

End DispatcherFacts.

(** ** Contexts in which every invocation is resolved *)

Section Contexts.

Lemma scan_app l : forall pending l2,
  scan pending l = true -> scan pending (l ++ l2) = scan None l2.
Proof.
  induction l as [|t l IH]; intros pending l2 Hl.
  - destruct pending; [discriminate|reflexivity].
  - destruct pending as [tc|], t as [r c|[|tc' [|]]|id text]; cbn in Hl |- *;
      try discriminate.
    + apply andb_prop in Hl as [-> Hl]. cbn. apply IH, Hl.
    + apply IH, Hl.
    + apply IH, Hl.
Qed.

Lemma scan_cycle l tc text :
  scan None l = true ->
  scan None (l ++ [ToolRequest [tc]; ToolResult (tc_id tc) text]) = true.
Proof.
  intros Hl. rewrite (scan_app l None _ Hl). cbn.
  rewrite bool_decide_eq_true_2 by reflexivity. reflexivity.
Qed.

Lemma scan_plain l : Forall plain l -> scan None l = true.
Proof.
  induction 1 as [|t l Ht _ IH]; [reflexivity|].
  destruct t; cbn in Ht |- *; [exact IH|contradiction..].
Qed.

Lemma scan_sound ctx : forall pending,
  scan pending ctx = true ->
  (forall i tcs, ctx !! i = Some (ToolRequest tcs) ->
     exists tc text,
       tcs = [tc]
       /\ ctx !! (S i) = Some (ToolResult (tc_id tc) text)
       /\ forall id' text', ctx !! (S (S i)) <> Some (ToolResult id' text'))
  /\ (forall i id text, ctx !! i = Some (ToolResult id text) ->
       (i = 0 /\ exists tc, pending = Some tc /\ tc_id tc = id)
       \/ (exists j tc, i = S j /\ ctx !! j = Some (ToolRequest [tc]) /\ tc_id tc = id))
  /\ (pending = None -> forall id text, ctx !! 0 <> Some (ToolResult id text))
  /\ (forall tc, pending = Some tc ->
       exists text,
         ctx !! 0 = Some (ToolResult (tc_id tc) text)
         /\ forall id' text', ctx !! 1 <> Some (ToolResult id' text')).
Proof.
  induction ctx as [|t rest IH]; intros pending Hscan.
  - destruct pending; [discriminate|]. repeat split; try discriminate.
  - destruct pending as [tc|], t as [r c|[|tc' [|]]|id text]; cbn in Hscan;
      try discriminate.
    + (* the outcome of the pending invocation *)
      apply andb_prop in Hscan as [Hid Hrest].
      apply bool_decide_eq_true_1 in Hid. subst id.
      destruct (IH None Hrest) as (Hreq & Hres & Hhead & _).
      repeat split.
      * intros [|i] tcs Hi; [discriminate|]. apply (Hreq i tcs Hi).
      * intros [|i] id' text' Hi.
        -- injection Hi as <- <-. left. eauto.
        -- right. destruct (Hres i id' text' Hi) as [[-> (tc0 & Hnone & _)]|(j & tc0 & -> & Hj & Hid)];
             [discriminate|]. exists (S j), tc0. auto.
      * discriminate.
      * intros tc0 [= <-]. exists text. split; [reflexivity|].
        intros id' text'. apply (Hhead eq_refl).
    + (* a plain turn *)
      destruct (IH None Hscan) as (Hreq & Hres & Hhead & _).
      repeat split.
      * intros [|i] tcs Hi; [discriminate|]. apply (Hreq i tcs Hi).
      * intros [|i] id text Hi; [discriminate|].
        right. destruct (Hres i id text Hi) as [[-> (tc0 & Hnone & _)]|(j & tc0 & -> & Hj & Hid)];
          [discriminate|]. exists (S j), tc0. auto.
      * discriminate.
      * discriminate.
    + (* an invocation, which becomes the pending one *)
      destruct (IH (Some tc') Hscan) as (Hreq & Hres & _ & Hnext).
      destruct (Hnext tc' eq_refl) as (text & Hout & Hafter).
      repeat split.
      * intros [|i] tcs Hi.
        -- injection Hi as <-. exists tc', text. auto.
        -- apply (Hreq i tcs Hi).
      * intros [|i] id text' Hi; [discriminate|].
        right. destruct (Hres i id text' Hi) as [[-> (tc0 & [= <-] & Hid)]|(j & tc0 & -> & Hj & Hid)].
        -- exists 0, tc'. auto.
        -- exists (S j), tc0. auto.
      * discriminate.
      * discriminate.
Qed.

Lemma scan_resolved ctx : scan None ctx = true -> resolved ctx.
Proof.
  intros Hscan. destruct (scan_sound ctx None Hscan) as (Hreq & Hres & _).
  split; [exact Hreq|].
  intros i id text Hi.
  destruct (Hres i id text Hi) as [[_ (tc & Hnone & _)]|Hprev]; [discriminate|exact Hprev].
Qed.

End Contexts.

(** ** The command-line orchestrator *)

Section ChatFacts.
Context {E : Type}.
Variable create_chat_completion : E -> list turn -> E * res message.
Variable identify_material : pyval -> pyval -> pyval -> res pyval.
Variable json_loads : string -> res pyval.
Variable json_dumps : pyval -> res string.

#[local] Abbreviation tool_loop :=
  (DemoLlm.tool_loop create_chat_completion identify_material json_loads json_dumps).
#[local] Abbreviation chat :=
  (DemoLlm.chat create_chat_completion identify_material json_loads json_dumps).
#[local] Abbreviation chat_loop :=
  (Notions.chat_loop create_chat_completion identify_material json_loads json_dumps).
#[local] Abbreviation run :=
  (Notions.run create_chat_completion identify_material json_loads json_dumps).

(** Every execution of the loop is a run. *)
Lemma tool_loop_run n : forall messages w r w',
  tool_loop n messages w = (r, w') -> run n messages w r w'.
Proof.
  induction n as [|n IH]; intros messages w r w' Hloop.
  - injection Hloop as <- <-. apply run_exhausted.
  - cbn [DemoLlm.tool_loop] in Hloop.
    unfold bind, lift, ret, DemoLlm.llm_create_chat_completion in Hloop.
    destruct (create_chat_completion (llm w) messages) as [llm' [m|e]] eqn:Hcall;
      [|injection Hloop as <- <-; apply run_engine_fault, Hcall].
    fold (called w messages llm' (Ok m)) in Hloop.
    destruct (msg_tool_calls m) as [|tc rest] eqn:Hcalls;
      [injection Hloop as <- <-; apply run_answer; assumption|].
    destruct (json_loads (fn_arguments (tc_function tc))) as [tool_args|e] eqn:Hargs;
      [|injection Hloop as <- <-; eapply run_parse_fault; eassumption].
    destruct (DemoTools.execute_tool identify_material json_dumps
                (fn_name (tc_function tc)) tool_args (called w messages llm' (Ok m)))
      as [[tool_result|e] w1] eqn:Hexec.
    + eapply run_cycle; try eassumption. apply IH, Hloop.
    + injection Hloop as <- <-. eapply run_dispatch_fault; eassumption.
Qed.

(** A run leaves the stored history alone. *)
Lemma run_history n messages w r w' :
  run n messages w r w' -> history w' = history w.
Proof.
  induction 1 as [| | | |n messages w llm' m tc rest tool_args e w1
                       Hcall Hcalls Hargs Hexec
                     |n messages w llm' m tc rest tool_args tool_result w1 r w'
                       Hcall Hcalls Hargs Hexec _ IH]; try reflexivity.
  - destruct (execute_tool_frame _ _ _ _ _ _ _ Hexec) as (_ & Hhist & _). exact Hhist.
  - destruct (execute_tool_frame _ _ _ _ _ _ _ Hexec) as (_ & Hhist & _).
    rewrite IH, Hhist. reflexivity.
Qed.

(** What a run adds to the log of engine calls: at most [n] exchanges; a
    fault of the engine among them is what the run raises; a run that
    exhausts its iterations made [n] calls, each answered with an
    invocation; and the contexts sent have every invocation resolved when
    the first one has. *)
Lemma run_exchanges n messages w r w' :
  run n messages w r w' ->
  exists new,
    exchanges w' = exchanges w ++ new
    /\ length new <= n
    /\ (forall ctx e, In (ctx, Raise e) new -> r = Raise e)
    /\ (r = Ok Exhausted -> length new = n /\ Forall asked_for_tool new)
    /\ (scan None messages = true -> Forall (fun x => scan None (fst x) = true) new)
    /\ length (invocations w') <= length (invocations w) + length new
    /\ (forall x, head new = Some x -> fst x = messages)
    /\ chained new.
Proof.
  induction 1 as [messages w
                 |n messages w llm' e Hcall
                 |n messages w llm' m Hcall Hcalls
                 |n messages w llm' m tc rest e Hcall Hcalls Hargs
                 |n messages w llm' m tc rest tool_args e w1 Hcall Hcalls Hargs Hexec
                 |n messages w llm' m tc rest tool_args tool_result w1 r w'
                    Hcall Hcalls Hargs Hexec _ IH].
  - exists []. rewrite app_nil_r. cbn. repeat split; auto with arith; try discriminate.
    intros ctx e [].
  - exists [(messages, Raise e)]. cbn. repeat split; auto with arith; try discriminate.
    + intros ctx e' [[= _ <-]|[]]. reflexivity.
    + intros x [= <-]. reflexivity.
  - exists [(messages, Ok m)]. cbn. repeat split; auto with arith; try discriminate.
    + intros ctx e' [[=]|[]].
    + intros x [= <-]. reflexivity.
  - exists [(messages, Ok m)]. cbn. repeat split; auto with arith; try discriminate.
    + intros ctx e' [[=]|[]].
    + intros x [= <-]. reflexivity.
  - destruct (execute_tool_frame _ _ _ _ _ _ _ Hexec)
      as (_ & _ & Hlog & calls & Hinv & Hone).
    exists [(messages, Ok m)]. cbn in Hlog, Hinv. rewrite Hlog, Hinv, length_app. cbn.
    repeat split; auto with arith; try discriminate; try lia.
    + intros ctx e' [[=]|[]].
    + intros x [= <-]. reflexivity.
  - destruct (execute_tool_frame _ _ _ _ _ _ _ Hexec)
      as (_ & _ & Hlog & calls & Hinv & Hone).
    destruct IH as (new & Hnew & Hlen & Hfault & Hcap & Hctx & Hcount & Hhead & Hchain).
    exists ((messages, Ok m) :: new). cbn in Hlog, Hinv.
    rewrite Hnew, Hlog, <- app_assoc. cbn [app length head fst].
    split; [reflexivity|]. split; [auto with arith|].
    split; [intros ctx e [[=]|Hin]; apply (Hfault ctx e Hin)|].
    split; [intros Hr; destruct (Hcap Hr) as [-> Hasked]; split;
            [reflexivity|constructor; [exists m, tc, rest; auto|exact Hasked]]|].
    split; [intros Hm; constructor; [exact Hm|]; apply Hctx, scan_cycle, Hm|].
    split; [rewrite Hinv, length_app in Hcount; lia|].
    split; [intros x [= <-]; reflexivity|].
    destruct new as [|[ctx2 reply2] later]; [exact I|].
    split; [|exact Hchain].
    exists m, tc, rest, tool_result. repeat split; [exact Hcalls|].
    apply (Hhead (ctx2, reply2) eq_refl).
Qed.

(** [chat], in terms of the run of its loop. *)
Lemma chat_unfold user_message w :
  chat user_message w
  = match chat_loop user_message w with
    | (Ok (Returned assistant_response), w1) =>
        (Ok assistant_response,
         World (llm w1) (history w1 ++ [Msg assistant assistant_response])
           (exchanges w1) (invocations w1))
    | (Ok Exhausted, w1) => (Ok (Some DemoLlm.FALLBACK), w1)
    | (Raise e, w1) => (Raise e, w1)
    end.
Proof.
  unfold DemoLlm.chat, Notions.chat_loop, bind, DemoLlm.history_append, get_history, ret.
  cbn [snd history].
  destruct (tool_loop 3 _ _) as [[[content|]|e] w1]; reflexivity.
Qed.

Lemma chat_loop_history user_message w :
  history (snd (chat_loop user_message w)) = history w ++ [Msg user (Some user_message)].
Proof.
  unfold Notions.chat_loop.
  rewrite (run_history 3 _ _ _ _ (tool_loop_run 3 _ _ _ _ (surjective_pairing _))).
  reflexivity.
Qed.

(** A reply whose first invocation has arguments that do not parse ends
    the run with the parse error, in a cycle without a classifier call. *)
Lemma run_parse_fault_raises n messages w r w' :
  run n messages w r w' ->
  forall new ctx m tc rest e,
    exchanges w' = exchanges w ++ new ->
    In (ctx, Ok m) new ->
    msg_tool_calls m = tc :: rest ->
    json_loads (fn_arguments (tc_function tc)) = Raise e ->
    r = Raise e /\ length (invocations w') < length (invocations w) + length new.
Proof.
  induction 1 as [messages w
                 |n messages w llm' e Hcall
                 |n messages w llm' m Hcall Hcalls
                 |n messages w llm' m tc rest e Hcall Hcalls Hargs
                 |n messages w llm' m tc rest tool_args e w1 Hcall Hcalls Hargs Hexec
                 |n messages w llm' m tc rest tool_args tool_result w1 r w'
                    Hcall Hcalls Hargs Hexec Hrun IH];
    intros new ctx m0 tc0 rest0 e0 Hnew Hin Hcalls0 Hargs0.
  - rewrite <- (app_nil_r (exchanges w)) in Hnew at 1.
    apply app_inv_head in Hnew. subst new. destruct Hin.
  - cbn in Hnew. apply app_inv_head in Hnew. subst new.
    destruct Hin as [[=]|[]].
  - cbn in Hnew. apply app_inv_head in Hnew. subst new.
    destruct Hin as [[= _ <-]|[]]. congruence.
  - cbn in Hnew. apply app_inv_head in Hnew. subst new.
    destruct Hin as [[= _ <-]|[]].
    assert (tc0 = tc) as -> by congruence.
    split; [congruence|cbn; lia].
  - destruct (execute_tool_frame _ _ _ _ _ _ _ Hexec) as (_ & _ & Hlog & _).
    cbn in Hlog. rewrite Hlog in Hnew. apply app_inv_head in Hnew. subst new.
    destruct Hin as [[= _ <-]|[]].
    assert (tc0 = tc) as -> by congruence. congruence.
  - destruct (execute_tool_frame _ _ _ _ _ _ _ Hexec)
      as (_ & _ & Hlog & calls & Hinv & Hone).
    cbn in Hlog, Hinv.
    destruct (run_exchanges _ _ _ _ _ Hrun) as (new1 & Hnew1 & _).
    rewrite Hnew1, Hlog, <- app_assoc in Hnew. apply app_inv_head in Hnew. subst new.
    destruct Hin as [[= _ <-]|Hin].
    + assert (tc0 = tc) as -> by congruence. congruence.
    + destruct (IH new1 ctx m0 tc0 rest0 e0) as [-> Hless]; auto.
      split; [reflexivity|]. rewrite Hinv, length_app in Hless. cbn. lia.
Qed.

(** The stored history holds plain turns only: at [init], after
    [clear_history], and after every [chat]. *)
Lemma init_history_plain (engine : E) : Forall plain (history (DemoLlm.init engine)).
Proof. constructor. Qed.

Lemma clear_history_plain (w : world E (list turn)) :
  Forall plain (history (snd (DemoLlm.clear_history w))).
Proof. constructor. Qed.

Lemma chat_keeps_history_plain user_message w :
  Forall plain (history w) -> Forall plain (history (snd (chat user_message w))).
Proof.
  intros Hplain. rewrite chat_unfold.
  pose proof (chat_loop_history user_message w) as Hhist.
  destruct (chat_loop user_message w) as [[[content|]|e] w1]; cbn in Hhist |- *;
    rewrite Hhist; repeat (apply Forall_app; split; auto); repeat constructor.
Qed.

End ChatFacts.

(** ** The web orchestrator *)

Section PageFacts.
Context {E : Type}.
Variable create_chat_completion : E -> list turn -> E * res message.
Variable identify_material : pyval -> pyval -> pyval -> res pyval.
Variable json_loads : string -> res pyval.
Variable json_dumps : pyval -> res string.

#[local] Abbreviation tool_loop :=
  (StreamlitDemo.tool_loop create_chat_completion identify_material json_loads json_dumps).
#[local] Abbreviation get_response :=
  (StreamlitDemo.get_response create_chat_completion identify_material json_loads json_dumps).
#[local] Abbreviation on_chat_input :=
  (StreamlitDemo.on_chat_input create_chat_completion identify_material json_loads json_dumps).
#[local] Abbreviation page_loop :=
  (Notions.page_loop create_chat_completion identify_material json_loads json_dumps).

(** What the loop of [get_response] does to the state. *)
Lemma page_tool_loop_spec n : forall messages info w r w',
  tool_loop n messages info w = (r, w') ->
  history w' = history w
  /\ exists new,
      exchanges w' = exchanges w ++ new
      /\ length new <= n
      /\ (forall info', r = Ok (Exhausted, info') ->
           length new = n /\ Forall asked_for_tool new)
      /\ (scan None messages = true -> Forall (fun x => scan None (fst x) = true) new)
      /\ length (invocations w') <= length (invocations w) + length new
      /\ (forall x, head new = Some x -> fst x = messages)
      /\ chained new.
Proof.
  induction n as [|n IH]; intros messages info w r w' Hloop.
  - injection Hloop as <- <-. split; [reflexivity|].
    exists []. rewrite app_nil_r. cbn. repeat split; auto with arith; discriminate.
  - cbn [StreamlitDemo.tool_loop] in Hloop.
    unfold bind, lift, ret, StreamlitDemo.llm_create_chat_completion in Hloop.
    destruct (create_chat_completion (llm w) messages) as [llm' [m|e]] eqn:Hcall.
    2:{ injection Hloop as <- <-. split; [reflexivity|].
        exists [(messages, Raise e)]. cbn.
        repeat split; auto with arith; try discriminate.
        intros x [= <-]. reflexivity. }
    fold (called w messages llm' (Ok m)) in Hloop.
    destruct (msg_tool_calls m) as [|tc rest] eqn:Hcalls.
    { injection Hloop as <- <-. split; [reflexivity|].
      exists [(messages, Ok m)]. cbn.
      repeat split; auto with arith; try discriminate.
      intros x [= <-]. reflexivity. }
    destruct (json_loads (fn_arguments (tc_function tc))) as [tool_args|e] eqn:Hargs.
    2:{ injection Hloop as <- <-. split; [reflexivity|].
        exists [(messages, Ok m)]. cbn.
        repeat split; auto with arith; try discriminate.
        intros x [= <-]. reflexivity. }
    destruct (DemoTools.execute_tool identify_material json_dumps
                (fn_name (tc_function tc)) tool_args (called w messages llm' (Ok m)))
      as [[tool_result|e] w1] eqn:Hexec;
      destruct (execute_tool_frame _ _ _ _ _ _ _ Hexec)
        as (_ & Hhist & Hlog & calls & Hinv & Hone);
      cbn in Hhist, Hlog, Hinv.
    2:{ injection Hloop as <- <-. split; [exact Hhist|].
        exists [(messages, Ok m)]. rewrite Hlog, Hinv, length_app. cbn.
        repeat split; auto with arith; try discriminate; try lia.
        intros x [= <-]. reflexivity. }
    destruct (json_loads tool_result) as [result|e] eqn:Hresult.
    2:{ injection Hloop as <- <-. split; [exact Hhist|].
        exists [(messages, Ok m)]. rewrite Hlog, Hinv, length_app. cbn.
        repeat split; auto with arith; try discriminate; try lia.
        intros x [= <-]. reflexivity. }
    destruct (IH _ _ _ _ _ Hloop)
      as (Hhist' & new & Hnew & Hlen & Hcap & Hctx & Hcount & Hhead & Hchain).
    split; [congruence|].
    exists ((messages, Ok m) :: new).
    rewrite Hnew, Hlog, <- app_assoc. cbn [app length head fst].
    split; [reflexivity|]. split; [auto with arith|].
    split; [intros info' Hr; destruct (Hcap info' Hr) as [-> Hasked]; split;
            [reflexivity|constructor; [exists m, tc, rest; auto|exact Hasked]]|].
    split; [intros Hm; constructor; [exact Hm|]; apply Hctx, scan_cycle, Hm|].
    split; [rewrite Hinv, length_app in Hcount; lia|].
    split; [intros x [= <-]; reflexivity|].
    destruct new as [|[ctx2 reply2] later]; [exact I|].
    split; [|exact Hchain].
    exists m, tc, rest, tool_result. repeat split; [exact Hcalls|].
    apply (Hhead (ctx2, reply2) eq_refl).
Qed.

(** The context [get_response] starts from has no invocation at all. *)
Lemma page_context_plain stored prompt :
  scan None
    ([Msg system (Some StreamlitDemo.SYSTEM_PROMPT)]
     ++ map (fun msg => Msg (StreamlitDemo.sm_role msg) (StreamlitDemo.sm_content msg))
          (List.filter StreamlitDemo.is_user_or_assistant stored)
     ++ [Msg user (Some prompt)]) = true.
Proof.
  apply scan_plain. repeat (apply Forall_app; split); repeat constructor.
  apply Forall_forall. intros t Hin. apply list_elem_of_In, in_map_iff in Hin.
  destruct Hin as (msg & <- & _). exact I.
Qed.

(** The page script, in terms of the run of the loop. *)
Lemma on_chat_input_unfold prompt w :
  on_chat_input prompt w
  = match page_loop prompt w with
    | (Ok (exit, tool_calls), w1) =>
        (Ok tt,
         World (llm w1)
           (history w1
            ++ [StreamlitDemo.StoredMessage assistant
                  match exit with
                  | Returned content => content
                  | Exhausted => Some StreamlitDemo.FALLBACK
                  end
                  tool_calls])
           (exchanges w1) (invocations w1))
    | (Raise e, w1) => (Raise e, w1)
    end.
Proof.
  unfold StreamlitDemo.on_chat_input, StreamlitDemo.get_response, Notions.page_loop,
    bind, StreamlitDemo.messages_append, get_history, ret.
  cbn [snd history].
  destruct (tool_loop 3 _ _ _) as [[[[content|] [|info infos]]|e] w1]; reflexivity.
Qed.

Lemma page_loop_history prompt w :
  history (snd (page_loop prompt w))
  = history w ++ [StreamlitDemo.StoredMessage user (Some prompt) []].
Proof.
  unfold Notions.page_loop.
  match goal with
  | |- context [tool_loop 3 ?messages ?info ?w1] =>
      destruct (page_tool_loop_spec 3 messages info w1 _ _ (surjective_pairing _))
        as [Hhist _]
  end.
  rewrite Hhist. reflexivity.
Qed.

Lemma page_loop_contexts prompt w :
  exists new,
    exchanges (snd (page_loop prompt w)) = exchanges w ++ new
    /\ Forall (fun x => scan None (fst x) = true) new
    /\ chained new
    /\ length (invocations (snd (page_loop prompt w)))
       <= length (invocations w) + length new.
Proof.
  unfold Notions.page_loop.
  match goal with
  | |- context [tool_loop 3 ?messages ?info ?w1] =>
      destruct (page_tool_loop_spec 3 messages info w1 _ _ (surjective_pairing _))
        as (_ & new & Hnew & _ & _ & Hctx & Hcount & _ & Hchain)
  end.
  exists new. split; [exact Hnew|]. split; [|split; [exact Hchain|exact Hcount]].
  apply Hctx, page_context_plain.
Qed.

End PageFacts.

(** ** The properties of the two orchestrators *)

Section Orchestration.
Context {E : Type}.
Variable create_chat_completion : E -> list turn -> E * res message.
Variable identify_material : pyval -> pyval -> pyval -> res pyval.
Variable json_loads : string -> res pyval.
Variable json_dumps : pyval -> res string.

#[local] Abbreviation tool_loop :=
  (DemoLlm.tool_loop create_chat_completion identify_material json_loads json_dumps).
#[local] Abbreviation chat :=
  (DemoLlm.chat create_chat_completion identify_material json_loads json_dumps).
#[local] Abbreviation chat_loop :=
  (Notions.chat_loop create_chat_completion identify_material json_loads json_dumps).
#[local] Abbreviation on_chat_input :=
  (StreamlitDemo.on_chat_input create_chat_completion identify_material json_loads json_dumps).
#[local] Abbreviation page_loop :=
  (Notions.page_loop create_chat_completion identify_material json_loads json_dumps).
#[local] Abbreviation StoredMessage := StreamlitDemo.StoredMessage.

(** What [chat] adds to the log of engine calls is what its loop adds. *)
Lemma chat_exchanges user_message w :
  exchanges (snd (chat user_message w)) = exchanges (snd (chat_loop user_message w)).
Proof.
  rewrite chat_unfold.
  destruct (chat_loop user_message w) as [[[content|]|e] w1]; reflexivity.
Qed.

Lemma chat_invocations user_message w :
  invocations (snd (chat user_message w)) = invocations (snd (chat_loop user_message w)).
Proof.
  rewrite chat_unfold.
  destruct (chat_loop user_message w) as [[[content|]|e] w1]; reflexivity.
Qed.

Lemma on_chat_input_logs prompt w :
  exchanges (snd (on_chat_input prompt w)) = exchanges (snd (page_loop prompt w))
  /\ invocations (snd (on_chat_input prompt w)) = invocations (snd (page_loop prompt w)).
Proof.
  rewrite on_chat_input_unfold.
  destruct (page_loop prompt w) as [[[exit info]|e] w1]; split; reflexivity.
Qed.

Lemma chat_loop_is_run user_message w :
  Notions.run create_chat_completion identify_material json_loads json_dumps 3
    ([Msg system (Some DemoLlm.SYSTEM_PROMPT)] ++ history w ++ [Msg user (Some user_message)])
    (World (llm w) (history w ++ [Msg user (Some user_message)])
       (exchanges w) (invocations w))
    (fst (chat_loop user_message w)) (snd (chat_loop user_message w)).
Proof. apply tool_loop_run, surjective_pairing. Qed.

(** C1. When the loop ends with a direct answer of the engine, the call
    returns that answer and the stored history is the one before the call
    followed by two turns, the user's and the assistant's final one, however
    many tool cycles came before; this holds for [chat] and for the page
    script, whose assistant turn also keeps the tool details for display. *)
Theorem answered_turn_appends_two :
  (forall user_message (w : world E (list turn)) content w1,
     chat_loop user_message w = (Ok (Returned content), w1) ->
     fst (chat user_message w) = Ok content
     /\ history (snd (chat user_message w))
        = history w ++ [Msg user (Some user_message); Msg assistant content])
  /\ (forall prompt (w : world E (list StreamlitDemo.stored_message)) content info w1,
       page_loop prompt w = (Ok (Returned content, info), w1) ->
       fst (on_chat_input prompt w) = Ok tt
       /\ history (snd (on_chat_input prompt w))
          = history w
            ++ [StoredMessage user (Some prompt) []; StoredMessage assistant content info]).
Proof.
  split.
  - intros user_message w content w1 Hloop.
    pose proof (chat_loop_history create_chat_completion identify_material
                  json_loads json_dumps user_message w) as Hhist.
    rewrite chat_unfold, Hloop. rewrite Hloop in Hhist. cbn in Hhist |- *.
    rewrite Hhist, <- app_assoc. auto.
  - intros prompt w content info w1 Hloop.
    pose proof (page_loop_history create_chat_completion identify_material
                  json_loads json_dumps prompt w) as Hhist.
    rewrite on_chat_input_unfold, Hloop. rewrite Hloop in Hhist. cbn in Hhist |- *.
    rewrite Hhist, <- app_assoc. auto.
Qed.

(** C2, as the code has it.  When the loop of [chat] uses up its three
    iterations, three engine calls were made and each was answered with an
    invocation; [chat] returns its fixed fallback text and stores no
    assistant turn, only the user's.  In the page, [get_response] then
    returns a fallback text of its own and the script stores it as the
    assistant turn after the user's. *)
Theorem cap_returns_fallback :
  (forall user_message (w : world E (list turn)) w1,
     chat_loop user_message w = (Ok Exhausted, w1) ->
     fst (chat user_message w)
     = Ok (Some "I had trouble processing that request. Could you rephrase?")
     /\ history (snd (chat user_message w)) = history w ++ [Msg user (Some user_message)]
     /\ exists new,
         exchanges (snd (chat user_message w)) = exchanges w ++ new
         /\ length new = 3 /\ Forall asked_for_tool new)
  /\ (forall prompt (w : world E (list StreamlitDemo.stored_message)) info w1,
       page_loop prompt w = (Ok (Exhausted, info), w1) ->
       fst (on_chat_input prompt w) = Ok tt
       /\ history (snd (on_chat_input prompt w))
          = history w
            ++ [StoredMessage user (Some prompt) [];
                StoredMessage assistant
                  (Some "I had trouble processing that. Could you rephrase?") info]).
Proof.
  split.
  - intros user_message w w1 Hloop.
    pose proof (chat_loop_history create_chat_completion identify_material
                  json_loads json_dumps user_message w) as Hhist.
    pose proof (chat_loop_is_run user_message w) as Hrun.
    rewrite chat_exchanges, chat_unfold, Hloop.
    rewrite Hloop in Hhist, Hrun. cbn in Hhist, Hrun |- *.
    destruct (run_exchanges _ _ _ _ _ _ _ _ _ Hrun) as (new & Hnew & _ & _ & Hcap & _).
    destruct (Hcap eq_refl) as [Hlen Hasked].
    repeat split; [exact Hhist|]. exists new. auto.
  - intros prompt w info w1 Hloop.
    pose proof (page_loop_history create_chat_completion identify_material
                  json_loads json_dumps prompt w) as Hhist.
    rewrite on_chat_input_unfold, Hloop. rewrite Hloop in Hhist. cbn in Hhist |- *.
    rewrite Hhist, <- app_assoc. auto.
Qed.

(** C3, as the code has it.  A cycle in which the engine's reply carries an
    invocation whose arguments [json.loads] rejects ends there: the loop
    raises the parse error, nothing is dispatched and the classifier is not
    called.  For a whole call of [chat]: when some reply received during it
    is such a reply, [chat] raises that error to its caller, with the user's
    turn stored and fewer classifier calls than engine calls. *)
Theorem unparsable_arguments_raise n messages (w : world E (list turn)) llm' m tc rest e :
  create_chat_completion (llm w) messages = (llm', Ok m) ->
  msg_tool_calls m = tc :: rest ->
  json_loads (fn_arguments (tc_function tc)) = Raise e ->
  (fst (tool_loop (S n) messages w) = Raise e
   /\ invocations (snd (tool_loop (S n) messages w)) = invocations w)
  /\ (forall user_message (w0 : world E (list turn)) new ctx,
       exchanges (snd (chat user_message w0)) = exchanges w0 ++ new ->
       In (ctx, Ok m) new ->
       fst (chat user_message w0) = Raise e
       /\ history (snd (chat user_message w0))
          = history w0 ++ [Msg user (Some user_message)]
       /\ length (invocations (snd (chat user_message w0)))
          < length (invocations w0) + length new).
Proof.
  intros Hcall Hcalls Hargs. split.
  - cbn [DemoLlm.tool_loop].
    unfold bind, lift, DemoLlm.llm_create_chat_completion.
    rewrite Hcall, Hcalls, Hargs. auto.
  - intros user_message w0 new ctx Hnew Hin.
    pose proof (chat_loop_history create_chat_completion identify_material
                  json_loads json_dumps user_message w0) as Hhist.
    pose proof (chat_loop_is_run user_message w0) as Hrun.
    rewrite chat_exchanges in Hnew. rewrite chat_invocations.
    destruct (run_parse_fault_raises _ _ _ _ _ _ _ _ _ Hrun new ctx m tc rest e
                Hnew Hin Hcalls Hargs) as [Hraise Hless].
    rewrite chat_unfold.
    destruct (chat_loop user_message w0) as [[exit|e0] w1]; cbn in *; [discriminate|].
    injection Hraise as ->. split; [reflexivity|split; [exact Hhist|exact Hless]].
Qed.

(** C8. When an engine call made while [chat] processes a user message
    raises, [chat] raises that very error to its caller, and the stored
    history is the one before the call followed by the user's turn alone. *)
Theorem engine_fault_propagates user_message (w : world E (list turn)) new ctx e :
  exchanges (snd (chat user_message w)) = exchanges w ++ new ->
  In (ctx, Raise e) new ->
  fst (chat user_message w) = Raise e
  /\ history (snd (chat user_message w)) = history w ++ [Msg user (Some user_message)].
Proof.
  intros Hnew Hin.
  pose proof (chat_loop_history create_chat_completion identify_material
                json_loads json_dumps user_message w) as Hhist.
  pose proof (chat_loop_is_run user_message w) as Hrun.
  rewrite chat_exchanges in Hnew.
  destruct (run_exchanges _ _ _ _ _ _ _ _ _ Hrun) as (new' & Hnew' & _ & Hfault & _).
  cbn [exchanges] in Hnew'. rewrite Hnew' in Hnew. apply app_inv_head in Hnew. subst new'.
  specialize (Hfault ctx e Hin).
  rewrite chat_unfold.
  destruct (chat_loop user_message w) as [[exit|e0] w1]; cbn in *; [discriminate|].
  injection Hfault as ->. split; [reflexivity|exact Hhist].
Qed.

(** C9. In every context sent to the engine while one user message is
    processed, every invocation is resolved: the turn that carries it
    carries it alone and is followed at once by the one tool-role turn with
    its identifier.  Each context extends the one before it by the first
    invocation of the reply and its outcome, whatever else the reply asked
    for, and the classifier is called at most once per engine call.  For
    [chat] this is for a session whose stored history holds plain turns, as
    every history built by [chat] does; the page builds its context from
    roles and texts only. *)
Theorem every_invocation_is_resolved :
  (forall user_message (w : world E (list turn)) new,
     Forall plain (history w) ->
     exchanges (snd (chat user_message w)) = exchanges w ++ new ->
     Forall (fun x => resolved (fst x)) new
     /\ chained new
     /\ length (invocations (snd (chat user_message w)))
        <= length (invocations w) + length new)
  /\ (forall prompt (w : world E (list StreamlitDemo.stored_message)) new,
       exchanges (snd (on_chat_input prompt w)) = exchanges w ++ new ->
       Forall (fun x => resolved (fst x)) new
       /\ chained new
       /\ length (invocations (snd (on_chat_input prompt w)))
          <= length (invocations w) + length new).
Proof.
  split.
  - intros user_message w new Hplain Hnew.
    pose proof (chat_loop_is_run user_message w) as Hrun.
    rewrite chat_exchanges in Hnew. rewrite chat_invocations.
    destruct (run_exchanges _ _ _ _ _ _ _ _ _ Hrun)
      as (new' & Hnew' & _ & _ & _ & Hctx & Hcount & _ & Hchain).
    cbn [exchanges invocations] in Hnew', Hcount. rewrite Hnew' in Hnew.
    apply app_inv_head in Hnew. subst new'.
    split; [|split; [exact Hchain|exact Hcount]].
    eapply Forall_impl; [apply Hctx|intros x; apply scan_resolved].
    apply scan_plain. repeat (apply Forall_app; split; auto); repeat constructor.
  - intros prompt w new Hnew.
    destruct (on_chat_input_logs prompt w) as [Hlog Hinv]. rewrite Hlog in Hnew. rewrite Hinv.
    destruct (page_loop_contexts create_chat_completion identify_material
                json_loads json_dumps prompt w) as (new' & Hnew' & Hctx & Hchain & Hcount).
    rewrite Hnew' in Hnew. apply app_inv_head in Hnew. subst new'.
    split; [|split; [exact Hchain|exact Hcount]].
    eapply Forall_impl; [exact Hctx|intros x; apply scan_resolved].
Qed.

End Orchestration.

(** * Further properties of the code *)

Import Observations.

(** ** The dispatcher, as a function *)

Section MoreDispatcherFacts.
Context {E H : Type}.
Variable identify_material : pyval -> pyval -> pyval -> res pyval.
Variable json_dumps : pyval -> res string.

#[local] Abbreviation execute_tool :=
  (DemoTools.execute_tool (E:=E) (H:=H) identify_material json_dumps).
#[local] Abbreviation outcome := (Observations.outcome identify_material json_dumps).

(** X1. The return contract of the docstring, for every tool name and every
    value of [arguments], dictionary or not.  One of three things happens.
    The name is the registered one, the three subscripts succeed, the
    classifier, called once on the three values, returns [v], and the result
    is the text [json.dumps] returns on [{"success": True, "result": v}].
    Or the result is what [json.dumps] gives on a failure dictionary
    [{"success": False, "error": ...}]: for another name, with the
    unknown-tool text and no call; for a subscript that raises, with the text
    for its exception and no call; for an instance of [Exception] raised by
    the classifier, or by [json.dumps] on the success dictionary, with the
    text for it, after the one call.  Or an exception from outside
    [Exception], raised by the classifier or by [json.dumps] on the success
    dictionary, leaves the dispatcher after the one call. *)
Theorem execute_tool_contract tool_name arguments (w : world E H) :
  (exists p1 p2 fe v text,
     tool_name = "identify_material"
     /\ getitem arguments "peak_1" = Ok p1
     /\ getitem arguments "peak_2" = Ok p2
     /\ getitem arguments "formation_energy" = Ok fe
     /\ identify_material p1 p2 fe = Ok v
     /\ json_dumps (PDict (<["success" := PBool true]> (<["result" := v]> ∅))) = Ok text
     /\ execute_tool tool_name arguments w
        = (Ok text,
           World (llm w) (history w) (exchanges w) (invocations w ++ [(p1, p2, fe)])))
  \/ (exists error,
       fst (execute_tool tool_name arguments w)
       = json_dumps (PDict (<["success" := PBool false]> (<["error" := PStr error]> ∅)))
       /\ ((tool_name <> "identify_material"
            /\ error = "Unknown tool: " +:+ tool_name
            /\ snd (execute_tool tool_name arguments w) = w)
           \/ (exists key e,
                 tool_name = "identify_material"
                 /\ In key ["peak_1"; "peak_2"; "formation_energy"]
                 /\ getitem arguments key = Raise e
                 /\ error = handler_text e
                 /\ snd (execute_tool tool_name arguments w) = w)
           \/ (exists p1 p2 fe e,
                 tool_name = "identify_material"
                 /\ getitem arguments "peak_1" = Ok p1
                 /\ getitem arguments "peak_2" = Ok p2
                 /\ getitem arguments "formation_energy" = Ok fe
                 /\ (identify_material p1 p2 fe = Raise e
                     \/ exists v,
                          identify_material p1 p2 fe = Ok v
                          /\ json_dumps
                               (PDict (<["success" := PBool true]> (<["result" := v]> ∅)))
                             = Raise e)
                 /\ is_exception e = true
                 /\ error = handler_text e
                 /\ invocations (snd (execute_tool tool_name arguments w))
                    = invocations w ++ [(p1, p2, fe)])))
  \/ (exists p1 p2 fe cls msg,
       tool_name = "identify_material"
       /\ getitem arguments "peak_1" = Ok p1
       /\ getitem arguments "peak_2" = Ok p2
       /\ getitem arguments "formation_energy" = Ok fe
       /\ (identify_material p1 p2 fe = Raise (BaseOnly cls msg)
           \/ exists v,
                identify_material p1 p2 fe = Ok v
                /\ json_dumps (PDict (<["success" := PBool true]> (<["result" := v]> ∅)))
                   = Raise (BaseOnly cls msg))
       /\ execute_tool tool_name arguments w
          = (Raise (BaseOnly cls msg),
             World (llm w) (history w) (exchanges w) (invocations w ++ [(p1, p2, fe)]))).
Proof.
  destruct (decide (tool_name = "identify_material")) as [->|Hne].
  2:{ right. left. exists ("Unknown tool: " +:+ tool_name).
      rewrite execute_tool_unknown by exact Hne. split; [reflexivity|]. left. auto. }
  pose proof (execute_tool_pure identify_material json_dumps
                "identify_material" arguments w) as Hrun.
  unfold Observations.outcome, Observations.calls_of, Observations.caught in Hrun.
  rewrite registered_name_passes in Hrun.
  destruct (getitem arguments "peak_1") as [p1|e1] eqn:H1.
  2:{ rewrite (getitem_raises _ _ _ H1), app_nil_r, world_eta in Hrun.
      right. left. exists (handler_text e1). rewrite Hrun. split; [reflexivity|].
      right. left. exists "peak_1", e1. cbn. auto 8. }
  destruct (getitem arguments "peak_2") as [p2|e2] eqn:H2.
  2:{ rewrite (getitem_raises _ _ _ H2), app_nil_r, world_eta in Hrun.
      right. left. exists (handler_text e2). rewrite Hrun. split; [reflexivity|].
      right. left. exists "peak_2", e2. cbn. auto 8. }
  destruct (getitem arguments "formation_energy") as [fe|e3] eqn:H3.
  2:{ rewrite (getitem_raises _ _ _ H3), app_nil_r, world_eta in Hrun.
      right. left. exists (handler_text e3). rewrite Hrun. split; [reflexivity|].
      right. left. exists "formation_energy", e3. cbn. auto 8. }
  unfold DemoTools.success, DemoTools.failure in Hrun.
  destruct (identify_material p1 p2 fe) as [v|e] eqn:Hv.
  - destruct (json_dumps (PDict (<["success" := PBool true]> (<["result" := v]> ∅))))
      as [text|e] eqn:Htext.
    + left. exists p1, p2, fe, v, text. auto 8.
    + destruct (is_exception e) eqn:He.
      * right. left. exists (handler_text e). rewrite Hrun. split; [reflexivity|].
        right. right. exists p1, p2, fe, e. repeat split; eauto.
      * right. right. destruct e as [m|c m|c m]; try discriminate.
        exists p1, p2, fe, c, m. repeat split; eauto.
  - destruct (is_exception e) eqn:He.
    + right. left. exists (handler_text e). rewrite Hrun. split; [reflexivity|].
      right. right. exists p1, p2, fe, e. repeat split; eauto.
    + right. right. destruct e as [m|c m|c m]; try discriminate.
      exists p1, p2, fe, c, m. repeat split; eauto.
Qed.

(** X2. Arguments that parsed to a JSON value other than an object (a list,
    a string, a number, [true], [false] or [null]) never reach the
    classifier: with the registered name the first subscript raises a
    [TypeError], and the result is what [json.dumps] gives on
    [{"success": False, "error": <its message>}]; with any other name it is
    the unknown-tool failure.  The state is left as it was. *)
Theorem non_dictionary_arguments_fail tool_name arguments (w : world E H) :
  (forall d, arguments <> PDict d) ->
  exists error,
    execute_tool tool_name arguments w
    = (json_dumps (PDict (<["success" := PBool false]> (<["error" := PStr error]> ∅))), w)
    /\ (tool_name = "identify_material" ->
        getitem arguments "peak_1" = Raise (Exception "TypeError" error))
    /\ (tool_name <> "identify_material" -> error = "Unknown tool: " +:+ tool_name).
Proof.
  intros Hnot.
  destruct (decide (tool_name = "identify_material")) as [->|Hne].
  - destruct (execute_tool_not_a_dict identify_material json_dumps arguments w Hnot)
      as (msg & Hget & Hrun).
    exists msg. split; [exact Hrun|]. split; [auto|]. intros Hne. destruct Hne. reflexivity.
  - exists ("Unknown tool: " +:+ tool_name).
    split; [apply execute_tool_unknown, Hne|]. split; [intros ->; destruct Hne|]; auto.
Qed.

(** X3. When several required keys are missing, the failure names the first
    of them in the order [peak_1], [peak_2], [formation_energy], and only
    that one: the result is what [json.dumps] gives on
    [{"success": False, "error": "Missing argument: '<key>'"}]. *)
Theorem first_missing_key_is_named (arguments : gmap string pyval)
    before key after (w : world E H) :
  ["peak_1"; "peak_2"; "formation_energy"] = before ++ key :: after ->
  (forall k, In k before -> is_Some (arguments !! k)) ->
  arguments !! key = None ->
  execute_tool "identify_material" (PDict arguments) w
  = (json_dumps
       (PDict (<["success" := PBool false]>
                 (<["error" := PStr ("Missing argument: '" +:+ key +:+ "'")]> ∅))),
     w).
Proof.
  intros Hsplit Hbefore Hkey.
  rewrite execute_tool_pure.
  unfold Observations.outcome, Observations.calls_of. rewrite registered_name_passes.
  cbn [getitem].
  destruct before as [|k1 [|k2 [|k3 more]]]; cbn in Hsplit.
  - injection Hsplit as <- _. rewrite Hkey. cbn. rewrite app_nil_r, world_eta. reflexivity.
  - injection Hsplit as <- <- _.
    destruct (Hbefore "peak_1") as [p1 H1]; [cbn; auto|].
    rewrite H1, Hkey. cbn. rewrite app_nil_r, world_eta. reflexivity.
  - injection Hsplit as <- <- <- _.
    destruct (Hbefore "peak_1") as [p1 H1]; [cbn; auto|].
    destruct (Hbefore "peak_2") as [p2 H2]; [cbn; auto|].
    rewrite H1, H2, Hkey. cbn. rewrite app_nil_r, world_eta. reflexivity.
  - injection Hsplit as _ _ _ Hnil. destruct more; discriminate.
Qed.

End MoreDispatcherFacts.

(** ** A call of [chat], from outside *)

Section MoreChatFacts.
Context {E : Type}.
Variable create_chat_completion : E -> list turn -> E * res message.
Variable identify_material : pyval -> pyval -> pyval -> res pyval.
Variable json_loads : string -> res pyval.
Variable json_dumps : pyval -> res string.

#[local] Abbreviation chat :=
  (DemoLlm.chat create_chat_completion identify_material json_loads json_dumps).
#[local] Abbreviation chat_loop :=
  (Notions.chat_loop create_chat_completion identify_material json_loads json_dumps).
#[local] Abbreviation run :=
  (Notions.run create_chat_completion identify_material json_loads json_dumps).
#[local] Abbreviation asked_invocations := (Observations.asked_invocations json_loads).
#[local] Abbreviation follows :=
  (Observations.follows identify_material json_loads json_dumps).
#[local] Abbreviation verdict :=
  (Observations.verdict identify_material json_loads json_dumps).

(** What a run leaves in the two logs, and how its end shows in them. *)
Lemma run_trace n messages w r w' :
  run n messages w r w' ->
  exists new,
    exchanges w' = exchanges w ++ new
    /\ invocations w' = invocations w ++ asked_invocations new
    /\ follows messages new
    /\ ((n = 0 /\ new = [] /\ r = Ok Exhausted)
        \/ (exists init x,
              new = init ++ [x]
              /\ Forall asked_for_tool init
              /\ r = verdict x
              /\ length new <= n
              /\ (r = Ok Exhausted -> length new = n))).
Proof.
  induction 1 as [messages w
                 |n messages w llm' e Hcall
                 |n messages w llm' m Hcall Hcalls
                 |n messages w llm' m tc rest e Hcall Hcalls Hargs
                 |n messages w llm' m tc rest tool_args e w1 Hcall Hcalls Hargs Hexec
                 |n messages w llm' m tc rest tool_args tool_result w1 r w'
                    Hcall Hcalls Hargs Hexec _ IH].
  - exists []. rewrite !app_nil_r. cbn. repeat split; auto.
  - exists [(messages, Raise e)]. cbn. rewrite app_nil_r.
    repeat split; auto. right. exists [], (messages, Raise e). cbn.
    repeat split; auto with arith. discriminate.
  - exists [(messages, Ok m)]. unfold Observations.asked_invocations, Observations.verdict.
    cbn. rewrite Hcalls, !app_nil_r.
    repeat split; auto. right. exists [], (messages, Ok m). cbn. rewrite Hcalls.
    repeat split; auto with arith. discriminate.
  - exists [(messages, Ok m)]. unfold Observations.asked_invocations, Observations.verdict.
    cbn. rewrite Hcalls, Hargs, !app_nil_r.
    repeat split; auto. right. exists [], (messages, Ok m). cbn. rewrite Hcalls, Hargs.
    repeat split; auto with arith. discriminate.
  - rewrite execute_tool_pure in Hexec. injection Hexec as Hout <-.
    exists [(messages, Ok m)]. unfold Observations.asked_invocations, Observations.verdict.
    cbn. rewrite Hcalls, Hargs, !app_nil_r.
    repeat split; auto. right. exists [], (messages, Ok m). cbn.
    rewrite Hcalls, Hargs, Hout.
    repeat split; auto with arith. discriminate.
  - rewrite execute_tool_pure in Hexec. injection Hexec as Hout <-.
    destruct IH as (new & Hnew & Hinv & Hfollows & Hshape).
    exists ((messages, Ok m) :: new). cbn [exchanges invocations called] in Hnew, Hinv.
    split; [rewrite Hnew, <- app_assoc; reflexivity|].
    split.
    { rewrite Hinv, <- app_assoc. unfold Observations.asked_invocations at 2.
      cbn [flat_map snd]. rewrite Hcalls, Hargs. reflexivity. }
    split.
    { cbn [Observations.follows]. split; [reflexivity|]. right.
      exists m, tc, rest, tool_args. repeat split; auto. exists tool_result. auto. }
    right. destruct Hshape as [(-> & -> & ->)|(init & x & -> & Hasked & -> & Hlen & Hcap)].
    + exists [], (messages, Ok m). unfold Observations.verdict. cbn.
      rewrite Hcalls, Hargs, Hout.
      repeat split; auto with arith.
    + exists ((messages, Ok m) :: init), x. cbn.
      repeat split; auto with arith.
      constructor; [exists m, tc, rest; auto|exact Hasked].
Qed.

(** The same for the loop inside [chat], which has three iterations. *)
Lemma chat_trace user_message w :
  exists new init x,
    exchanges (snd (chat user_message w)) = exchanges w ++ new
    /\ invocations (snd (chat user_message w)) = invocations w ++ asked_invocations new
    /\ follows
         ([Msg system (Some DemoLlm.SYSTEM_PROMPT)]
          ++ history w ++ [Msg user (Some user_message)]) new
    /\ new = init ++ [x]
    /\ Forall asked_for_tool init
    /\ fst (chat_loop user_message w) = verdict x
    /\ length new <= 3
    /\ (fst (chat_loop user_message w) = Ok Exhausted -> length new = 3).
Proof.
  pose proof (tool_loop_run create_chat_completion identify_material json_loads json_dumps
                3 _ _ _ _ (surjective_pairing (chat_loop user_message w))) as Hrun.
  destruct (run_trace _ _ _ _ _ Hrun) as (new & Hnew & Hinv & Hfollows & Hshape).
  destruct Hshape as [(Hzero & _)|(init & x & Hsplit & Hasked & Hverdict & Hlen & Hcap)];
    [discriminate|].
  exists new, init, x.
  rewrite chat_unfold.
  destruct (chat_loop user_message w) as [[[content|]|e] w1]; cbn in *; auto 10.
Qed.

(** How a loop ends in a direct answer: with the content of the reply to
    its last engine call, which carries no invocation. *)
Lemma verdict_returned x content :
  verdict x = Ok (Returned content) ->
  exists m, snd x = Ok m /\ msg_tool_calls m = [] /\ msg_content m = content.
Proof.
  unfold Observations.verdict. intros Hx.
  destruct (snd x) as [m|e]; [|discriminate]. exists m.
  destruct (msg_tool_calls m) as [|tc rest]; [injection Hx as <-; auto|].
  repeat case_match; discriminate.
Qed.

(** X4. However the call ends, [chat] only appends to the stored history:
    the user's turn, and after it the assistant's turn exactly when the loop
    ends in a direct answer, which is then the content of the last reply of
    the engine, stored and returned.  When the loop uses up its iterations
    [chat] returns its fixed text and stores no assistant's turn, and when
    the loop raises [chat] raises the same and stores none.  [chat] keeps the
    history well formed: every stored turn is a user's or an assistant's (the
    system prompt is never stored), and every assistant's turn stands right
    after a user's. *)
Theorem chat_keeps_history_well_formed user_message (w : world E (list turn)) :
  answers_follow_questions (history w) ->
  answers_follow_questions (history (snd (chat user_message w)))
  /\ exists suffix,
      history (snd (chat user_message w))
      = history w ++ Msg user (Some user_message) :: suffix
      /\ match fst (chat_loop user_message w) with
         | Ok (Returned content) =>
             suffix = [Msg assistant content]
             /\ fst (chat user_message w) = Ok content
             /\ exists ctx m,
                  last (exchanges (snd (chat user_message w))) = Some (ctx, Ok m)
                  /\ msg_tool_calls m = []
                  /\ msg_content m = content
         | Ok Exhausted =>
             suffix = []
             /\ fst (chat user_message w)
                = Ok (Some "I had trouble processing that request. Could you rephrase?")
         | Raise e =>
             suffix = [] /\ fst (chat user_message w) = Raise e
         end.
Proof.
  intros [Hroles Hpairs].
  assert (Huser : answers_follow_questions (history w ++ [Msg user (Some user_message)])).
  { split.
    - intros t Hin. apply in_app_or in Hin as [Hin|[<-|[]]]; [auto|eauto].
    - intros i c Hi. destruct (decide (i < length (history w))) as [Hlt|Hge].
      + rewrite lookup_app_l in Hi by exact Hlt.
        destruct (Hpairs i c Hi) as (j & q & -> & Hj).
        exists j, q. split; [reflexivity|]. rewrite lookup_app_l by lia. exact Hj.
      + rewrite lookup_app_r in Hi by lia.
        destruct (i - length (history w)) as [|k]; [discriminate|].
        cbn in Hi. destruct k; discriminate. }
  pose proof (chat_loop_history create_chat_completion identify_material
                json_loads json_dumps user_message w) as Hhist.
  destruct (chat_trace user_message w)
    as (new & init & x & Hnew & _ & _ & Hsplit & _ & Hverdict & _).
  rewrite chat_unfold in Hnew |- *.
  destruct (chat_loop user_message w) as [[[content|]|e] w1]; cbn in Hhist, Hnew, Hverdict |- *.
  2,3: rewrite Hhist; split; [exact Huser|exists []; auto].
  rewrite Hhist. split.
  - destruct Huser as [Hroles' Hpairs']. split.
    + intros t Hin. apply in_app_or in Hin as [Hin|[<-|[]]]; [auto|eauto].
    + intros i c Hi.
      set (h := history w ++ [Msg user (Some user_message)]) in *.
      destruct (decide (i < length h)) as [Hlt|Hge].
      * rewrite lookup_app_l in Hi by exact Hlt.
        destruct (Hpairs' i c Hi) as (j & q & -> & Hj).
        exists j, q. split; [reflexivity|]. rewrite lookup_app_l by lia. exact Hj.
      * rewrite lookup_app_r in Hi by lia.
        destruct (i - length h) as [|k] eqn:Hk; [|destruct k; discriminate].
        assert (i = S (length (history w))) as ->.
        { subst h. rewrite length_app in *. cbn in *. lia. }
        exists (length (history w)), (Some user_message). split; [reflexivity|].
        rewrite lookup_app_l by (subst h; rewrite length_app; cbn; lia).
        subst h. rewrite lookup_app_r by lia. rewrite Nat.sub_diag. reflexivity.
  - exists [Msg assistant content]. rewrite <- app_assoc. split; [reflexivity|].
    split; [reflexivity|]. split; [reflexivity|].
    symmetry in Hverdict. destruct (verdict_returned x content Hverdict) as (m & Hx & Hm).
    exists (fst x), m. rewrite Hnew, Hsplit, app_assoc, last_snoc, <- Hx.
    destruct x; auto.
Qed.

(** X5. One call of [chat] makes at least one and at most three engine
    calls; every one but the last was answered with an invocation; and the
    last exchange decides how the call ends: the engine's fault is raised;
    a reply without invocation is returned as the answer; a reply with an
    invocation whose arguments do not parse raises the parse error; an
    exception that leaves the dispatcher is raised; and otherwise, which
    needs three calls, the fallback text is returned. *)
Theorem last_exchange_decides user_message (w : world E (list turn)) new :
  exchanges (snd (chat user_message w)) = exchanges w ++ new ->
  exists init x,
    new = init ++ [x]
    /\ length new <= 3
    /\ Forall asked_for_tool init
    /\ fst (chat user_message w)
       = match verdict x with
         | Ok (Returned content) => Ok content
         | Ok Exhausted => Ok (Some DemoLlm.FALLBACK)
         | Raise e => Raise e
         end
    /\ (verdict x = Ok Exhausted -> length new = 3).
Proof.
  intros Hnew.
  destruct (chat_trace user_message w)
    as (new' & init & x & Hnew' & _ & _ & Hsplit & Hasked & Hverdict & Hlen & Hcap).
  rewrite Hnew' in Hnew. apply app_inv_head in Hnew. subst new'.
  exists init, x. rewrite <- Hverdict.
  repeat split; auto.
  rewrite chat_unfold.
  destruct (chat_loop user_message w) as [[[content|]|e] w1]; reflexivity.
Qed.

(** X6. What the engine is shown during one call of [chat]: first the
    system prompt, the whole stored history and the new user turn; then,
    call after call, the context before it followed by the first invocation
    of the reply and by the very text the dispatcher returns for that
    invocation's name and parsed arguments. *)
Theorem chat_contexts_follow user_message (w : world E (list turn)) new :
  exchanges (snd (chat user_message w)) = exchanges w ++ new ->
  follows
    ([Msg system (Some DemoLlm.SYSTEM_PROMPT)]
     ++ history w ++ [Msg user (Some user_message)]) new.
Proof.
  intros Hnew.
  destruct (chat_trace user_message w) as (new' & init & x & Hnew' & _ & Hfollows & _).
  rewrite Hnew' in Hnew. apply app_inv_head in Hnew. subst new'. exact Hfollows.
Qed.

(** X7. The classifier calls made during one call of [chat] are exactly the
    ones the engine asked for, in order: one for each reply whose first
    invocation names [identify_material] and whose arguments parse to a
    value with the three keys, on the values under these keys.  A reply
    with another tool name, with broken arguments or with a key missing
    causes none. *)
Theorem classifier_calls_are_the_asked_ones user_message (w : world E (list turn)) new :
  exchanges (snd (chat user_message w)) = exchanges w ++ new ->
  invocations (snd (chat user_message w)) = invocations w ++ asked_invocations new.
Proof.
  intros Hnew.
  destruct (chat_trace user_message w) as (new' & init & x & Hnew' & Hinv & _).
  rewrite Hnew' in Hnew. apply app_inv_head in Hnew. subst new'. exact Hinv.
Qed.

(** The first context of a call. *)
Lemma chat_first_context user_message (w : world E (list turn)) new :
  exchanges (snd (chat user_message w)) = exchanges w ++ new ->
  exists x rest,
    new = x :: rest
    /\ fst x = [Msg system (Some DemoLlm.SYSTEM_PROMPT)]
               ++ history w ++ [Msg user (Some user_message)].
Proof.
  intros Hnew.
  destruct (chat_trace user_message w)
    as (new' & init & x & Hnew' & _ & Hfollows & Hsplit & _).
  rewrite Hnew' in Hnew. apply app_inv_head in Hnew. subst new'.
  destruct new as [|[ctx reply] rest]; [destruct init; discriminate|].
  exists (ctx, reply), rest. split; [reflexivity|]. apply Hfollows.
Qed.

(** X8. A call that ends without a direct answer (it raised, or it used up
    its iterations) leaves its user turn in the history, unanswered; the
    next call shows it to the engine, right before the new user turn. *)
Theorem unanswered_message_stays_in_context
    user_message next_message (w : world E (list turn)) new :
  (exists e, fst (chat user_message w) = Raise e)
  \/ fst (chat_loop user_message w) = Ok Exhausted ->
  exchanges (snd (chat next_message (snd (chat user_message w))))
  = exchanges (snd (chat user_message w)) ++ new ->
  history (snd (chat user_message w)) = history w ++ [Msg user (Some user_message)]
  /\ exists x rest,
      new = x :: rest
      /\ fst x = [Msg system (Some DemoLlm.SYSTEM_PROMPT)]
                 ++ history w
                 ++ [Msg user (Some user_message); Msg user (Some next_message)].
Proof.
  intros Hend Hnew.
  assert (Hhist : history (snd (chat user_message w))
                  = history w ++ [Msg user (Some user_message)]).
  { pose proof (chat_loop_history create_chat_completion identify_material
                  json_loads json_dumps user_message w) as Hloop.
    rewrite chat_unfold in Hend |- *.
    destruct (chat_loop user_message w) as [[[content|]|e] w1]; cbn in *;
      [destruct Hend as [[e He]|He]; discriminate|exact Hloop..]. }
  split; [exact Hhist|].
  destruct (chat_first_context next_message _ new Hnew) as (x & rest & -> & Hctx).
  exists x, rest. split; [reflexivity|].
  rewrite Hctx, Hhist, <- !app_assoc. reflexivity.
Qed.

(** X9. After [clear_history] nothing of the earlier conversation reaches
    the engine: the next call starts from the system prompt and the new user
    turn alone, and leaves a history of one or two turns. *)
Theorem clear_history_forgets user_message (w : world E (list turn)) new :
  exchanges (snd (chat user_message (snd (DemoLlm.clear_history w)))) = exchanges w ++ new ->
  (exists x rest,
     new = x :: rest
     /\ fst x = [Msg system (Some DemoLlm.SYSTEM_PROMPT); Msg user (Some user_message)])
  /\ 1 <= length (history (snd (chat user_message (snd (DemoLlm.clear_history w))))) <= 2.
Proof.
  intros Hnew. split.
  - apply (chat_first_context user_message (snd (DemoLlm.clear_history w)) new Hnew).
  - pose proof (chat_loop_history create_chat_completion identify_material
                  json_loads json_dumps user_message (snd (DemoLlm.clear_history w))) as Hloop.
    rewrite chat_unfold.
    destruct (chat_loop user_message (snd (DemoLlm.clear_history w)))
      as [[[content|]|e] w1]; cbn in *; rewrite ?length_app, Hloop; cbn; lia.
Qed.

End MoreChatFacts.

(** ** The command loop *)

Section MainFacts.
Context {E : Type}.
Variable create_chat_completion : E -> list turn -> E * res message.
Variable identify_material : pyval -> pyval -> pyval -> res pyval.
Variable json_loads : string -> res pyval.
Variable json_dumps : pyval -> res string.
Variable strip : string -> string.
Variable lower : string -> string.

#[local] Abbreviation chat :=
  (DemoLlm.chat create_chat_completion identify_material json_loads json_dumps).
#[local] Abbreviation main_loop :=
  (DemoLlmMain.main_loop create_chat_completion identify_material json_loads json_dumps
     strip lower).
#[local] Abbreviation silent := (Commands.silent strip lower).
#[local] Abbreviation leaves := (Commands.leaves strip lower).
#[local] Abbreviation asks_engine := (Commands.asks_engine strip lower).
#[local] Abbreviation Typed := DemoLlmMain.Typed.

(** Silent keys are consumed without a call of the engine or of the
    classifier; the history is left as it was, or emptied by a [clear]. *)
Lemma silent_keys_skipped prefix : forall (w : world E (list turn)),
  Forall silent prefix ->
  exists w1,
    (forall keys, main_loop (prefix ++ keys) w = main_loop keys w1)
    /\ llm w1 = llm w /\ exchanges w1 = exchanges w /\ invocations w1 = invocations w
    /\ (history w1 = history w \/ history w1 = []).
Proof.
  induction prefix as [|k prefix IH]; intros w Hsilent.
  - exists w. repeat split; auto.
  - inversion Hsilent as [|k' prefix' Hk Hrest]; subst.
    destruct k as [line|]; cbn [app DemoLlmMain.main_loop].
    2:{ destruct (IH w Hrest) as (w1 & Hw1). exists w1. exact Hw1. }
    cbn in Hk. destruct (decide (strip line = "")) as [Hblank|Hfull].
    { destruct (IH w Hrest) as (w1 & Hskip & Hw1). exists w1. split; [|exact Hw1].
      intros keys. rewrite bool_decide_eq_true_2 by exact Hblank. apply Hskip. }
    destruct Hk as [Hblank|(Hexit & Hquit & Hcmd)]; [contradiction|].
    destruct Hcmd as [Hclear|Hhelp].
    + destruct (IH (snd (DemoLlm.clear_history w)) Hrest)
        as (w1 & Hskip & Hllm & Hlog & Hinv & Hhist).
      exists w1. split; [|cbn in *; repeat split; auto; destruct Hhist; auto].
      intros keys.
      rewrite (bool_decide_eq_false_2 _ Hfull), (bool_decide_eq_false_2 _ Hexit),
        (bool_decide_eq_false_2 _ Hquit), (bool_decide_eq_true_2 _ Hclear).
      cbn. unfold bind. cbn. apply Hskip.
    + destruct (IH w Hrest) as (w1 & Hskip & Hw1). exists w1. split; [|exact Hw1].
      intros keys.
      rewrite (bool_decide_eq_false_2 _ Hfull), (bool_decide_eq_false_2 _ Hexit),
        (bool_decide_eq_false_2 _ Hquit), (bool_decide_eq_true_2 _ Hhelp).
      rewrite bool_decide_eq_false_2 by (rewrite Hhelp; discriminate).
      cbn. apply Hskip.
Qed.

(** A line for the engine is one call of [chat] on the stripped line. *)
Lemma main_loop_asks line rest (w : world E (list turn)) :
  asks_engine line ->
  main_loop (Typed line :: rest) w
  = match chat (strip line) w with
    | (Ok response, w') => main_loop rest w'
    | (Raise e, w') =>
        if DemoLlmMain.is_keyboard_interrupt e then main_loop rest w'
        else if DemoLlmMain.is_eof_error e then (Ok rest, w')
        else (Raise e, w')
    end.
Proof.
  intros (Hfull & Hexit & Hquit & Hclear & Hhelp). cbn [DemoLlmMain.main_loop].
  rewrite (bool_decide_eq_false_2 _ Hfull), (bool_decide_eq_false_2 _ Hexit),
    (bool_decide_eq_false_2 _ Hquit), (bool_decide_eq_false_2 _ Hclear),
    (bool_decide_eq_false_2 _ Hhelp).
  reflexivity.
Qed.

(** A call of [chat] whose first engine call fails. *)
Lemma chat_engine_down user_message (w : world E (list turn)) llm' e :
  create_chat_completion (llm w)
    ([Msg system (Some DemoLlm.SYSTEM_PROMPT)] ++ history w ++ [Msg user (Some user_message)])
  = (llm', Raise e) ->
  chat user_message w
  = (Raise e,
     World llm' (history w ++ [Msg user (Some user_message)])
       (exchanges w
        ++ [([Msg system (Some DemoLlm.SYSTEM_PROMPT)]
             ++ history w ++ [Msg user (Some user_message)], Raise e)])
       (invocations w)).
Proof.
  intros Hcall.
  unfold DemoLlm.chat, bind, DemoLlm.history_append, get_history.
  cbn [DemoLlm.tool_loop]. unfold bind, DemoLlm.llm_create_chat_completion.
  cbn [llm history exchanges invocations]. rewrite Hcall. reflexivity.
Qed.

(** X10. Commands never reach the engine: a session of blank lines,
    [help], [clear] and Ctrl-C at the prompt, ended by [exit] or [quit] in
    any case and with blanks around, returns normally without a call of the
    engine or of the classifier, and leaves what was typed after it
    unread. *)
Theorem commands_never_reach_the_engine prefix line rest (w : world E (list turn)) :
  Forall silent prefix ->
  leaves line ->
  exists w',
    main_loop (prefix ++ Typed line :: rest) w = (Ok rest, w')
    /\ llm w' = llm w /\ exchanges w' = exchanges w /\ invocations w' = invocations w
    /\ (history w' = history w \/ history w' = []).
Proof.
  intros Hsilent (Hfull & Hleave).
  destruct (silent_keys_skipped prefix w Hsilent) as (w1 & Hskip & Hw1).
  exists w1. split; [|exact Hw1].
  rewrite Hskip. cbn [DemoLlmMain.main_loop].
  rewrite (bool_decide_eq_false_2 _ Hfull).
  destruct Hleave as [Hexit|Hquit].
  - rewrite (bool_decide_eq_true_2 _ Hexit). reflexivity.
  - rewrite (bool_decide_eq_true_2 _ Hquit), orb_true_r. reflexivity.
Qed.

(** X11. What [chat] raises meets the two handlers of the loop, which
    enclose the call.  When the engine fails on the first question of a
    session: a [KeyboardInterrupt] is taken by the first handler and the
    loop goes on with the next key; an [EOFError] is taken by the second and
    the loop ends quietly, as if the terminal had been closed, the rest of
    the input unread; any other exception leaves [main].  In each case the
    question stays stored, unanswered, the failed call is in the log, and
    the classifier was not called. *)
Theorem engine_failure_meets_the_handlers prefix line rest (w : world E (list turn)) e :
  Forall silent prefix ->
  asks_engine line ->
  (forall ctx, exists llm', create_chat_completion (llm w) ctx = (llm', Raise e)) ->
  exists earlier llm' w1,
    (earlier = history w \/ earlier = [])
    /\ create_chat_completion (llm w)
         ([Msg system (Some DemoLlm.SYSTEM_PROMPT)]
          ++ earlier ++ [Msg user (Some (strip line))])
       = (llm', Raise e)
    /\ w1 = World llm' (earlier ++ [Msg user (Some (strip line))])
              (exchanges w
               ++ [([Msg system (Some DemoLlm.SYSTEM_PROMPT)]
                    ++ earlier ++ [Msg user (Some (strip line))], Raise e)])
              (invocations w)
    /\ (forall msg, e = BaseOnly "KeyboardInterrupt" msg ->
        main_loop (prefix ++ Typed line :: rest) w = main_loop rest w1)
    /\ (forall msg, e = Exception "EOFError" msg ->
        main_loop (prefix ++ Typed line :: rest) w = (Ok rest, w1))
    /\ ((forall msg, e <> BaseOnly "KeyboardInterrupt" msg) ->
        (forall msg, e <> Exception "EOFError" msg) ->
        main_loop (prefix ++ Typed line :: rest) w = (Raise e, w1)).
Proof.
  intros Hsilent Hasks Hdown.
  destruct (silent_keys_skipped prefix w Hsilent)
    as (w0 & Hskip & Hllm & Hlog & Hinv & Hhist).
  destruct (Hdown ([Msg system (Some DemoLlm.SYSTEM_PROMPT)]
                   ++ history w0 ++ [Msg user (Some (strip line))])) as [llm' Hcall].
  rewrite <- Hllm in Hcall.
  exists (history w0), llm', (snd (chat (strip line) w0)).
  rewrite Hskip, (main_loop_asks line rest w0 Hasks).
  rewrite (chat_engine_down (strip line) w0 llm' e Hcall). cbn [snd].
  rewrite Hlog, Hinv.
  split; [exact Hhist|]. split; [rewrite <- Hllm; exact Hcall|]. split; [reflexivity|].
  split; [intros msg ->; reflexivity|]. split; [intros msg ->; reflexivity|].
  intros Hkey Heof. destruct e as [m|c m|c m]; [reflexivity| |]; cbn.
  - rewrite bool_decide_eq_false_2; [reflexivity|]. intros ->. apply (Heof m). reflexivity.
  - rewrite bool_decide_eq_false_2; [reflexivity|]. intros ->. apply (Hkey m). reflexivity.
Qed.

End MainFacts.

(** ** The page, from outside *)

Section MorePageFacts.
Context {E : Type}.
Variable create_chat_completion : E -> list turn -> E * res message.
Variable identify_material : pyval -> pyval -> pyval -> res pyval.
Variable json_loads : string -> res pyval.
Variable json_dumps : pyval -> res string.

#[local] Abbreviation tool_loop :=
  (StreamlitDemo.tool_loop create_chat_completion identify_material json_loads json_dumps).
#[local] Abbreviation on_chat_input :=
  (StreamlitDemo.on_chat_input create_chat_completion identify_material json_loads json_dumps).
#[local] Abbreviation page_loop :=
  (Notions.page_loop create_chat_completion identify_material json_loads json_dumps).
#[local] Abbreviation script :=
  (StreamlitPage.script create_chat_completion identify_material json_loads json_dumps).
#[local] Abbreviation follows :=
  (Observations.follows identify_material json_loads json_dumps).
#[local] Abbreviation StoredMessage := StreamlitDemo.StoredMessage.
#[local] Abbreviation info_name := StreamlitDemo.info_name.

(** The texts of the stored user and assistant messages, as turns. *)
#[local] Abbreviation stored_turns stored :=
  (map (fun msg => Msg (StreamlitDemo.sm_role msg) (StreamlitDemo.sm_content msg))
     (List.filter StreamlitDemo.is_user_or_assistant stored)).

Lemma omap_first_name_asked ctx m tc rest (new : list (list turn * res message)) :
  msg_tool_calls m = tc :: rest ->
  omap first_name ((ctx, Ok m) :: new) = fn_name (tc_function tc) :: omap first_name new.
Proof.
  intros Hcalls. change (omap first_name ((ctx, Ok m) :: new))
    with (match first_name (ctx, Ok m) with
          | Some y => y :: omap first_name new
          | None => omap first_name new
          end).
  unfold first_name at 1. cbn [snd]. rewrite Hcalls. reflexivity.
Qed.

(** What the loop of [get_response] leaves in the log of engine calls and
    in the list of tool details. *)
Lemma page_trace n : forall messages info w r w',
  tool_loop n messages info w = (r, w') ->
  exists new,
    exchanges w' = exchanges w ++ new
    /\ follows messages new
    /\ length new <= n
    /\ (forall ctx e, In (ctx, Raise e) new -> r = Raise e)
    /\ (forall exit info', r = Ok (exit, info') ->
        map info_name info' = map info_name info ++ omap first_name new
        /\ length info' + match exit with Returned _ => 1 | Exhausted => 0 end
           = length info + length new
        /\ (exit = Exhausted -> length new = n)).
Proof.
  induction n as [|n IH]; intros messages info w r w' Hloop.
  - injection Hloop as <- <-. exists []. rewrite app_nil_r. cbn.
    split; [reflexivity|]. split; [exact I|]. split; [auto|].
    split; [intros ctx e []|].
    intros exit info' [= <- <-]. rewrite app_nil_r. split; [reflexivity|split; [lia|auto]].
  - cbn [StreamlitDemo.tool_loop] in Hloop.
    unfold bind, lift, ret, StreamlitDemo.llm_create_chat_completion in Hloop.
    destruct (create_chat_completion (llm w) messages) as [llm' [m|e]] eqn:Hcall.
    2:{ injection Hloop as <- <-. exists [(messages, Raise e)]. cbn.
        repeat split; auto with arith; try discriminate.
        intros ctx e' [[= _ <-]|[]]. reflexivity. }
    fold (called w messages llm' (Ok m)) in Hloop.
    destruct (msg_tool_calls m) as [|tc rest] eqn:Hcalls.
    { injection Hloop as <- <-. exists [(messages, Ok m)]. cbn.
      split; [reflexivity|]. split; [auto|]. split; [auto with arith|].
      split; [intros ctx e' [[=]|[]]|].
      intros exit info' [= <- <-]. unfold first_name. cbn. rewrite Hcalls, app_nil_r.
      split; [reflexivity|split; [lia|discriminate]]. }
    destruct (json_loads (fn_arguments (tc_function tc))) as [tool_args|e] eqn:Hargs.
    2:{ injection Hloop as <- <-. exists [(messages, Ok m)]. cbn.
        repeat split; auto with arith; try discriminate.
        intros ctx e' [[=]|[]]. }
    rewrite execute_tool_pure in Hloop.
    destruct (Observations.outcome identify_material json_dumps
                (fn_name (tc_function tc)) tool_args) as [tool_result|e] eqn:Hout.
    2:{ injection Hloop as <- <-. exists [(messages, Ok m)]. cbn.
        repeat split; auto with arith; try discriminate.
        intros ctx e' [[=]|[]]. }
    destruct (json_loads tool_result) as [result|e] eqn:Hresult in Hloop.
    2:{ injection Hloop as <- <-. exists [(messages, Ok m)]. cbn.
        repeat split; auto with arith; try discriminate.
        intros ctx e' [[=]|[]]. }
    destruct (IH _ _ _ _ _ Hloop) as (new & Hnew & Hfollows & Hlen & Hfault & Hinfo).
    exists ((messages, Ok m) :: new). cbn [exchanges called] in Hnew.
    split; [rewrite Hnew, <- app_assoc; reflexivity|].
    split.
    { cbn [Observations.follows]. split; [reflexivity|]. right.
      exists m, tc, rest, tool_args. repeat split; auto. exists tool_result. auto. }
    split; [cbn; lia|].
    split; [intros ctx e [[=]|Hin]; apply (Hfault ctx e Hin)|].
    intros exit info' Hr. destruct (Hinfo exit info' Hr) as (Hnames & Hcount & Hcap).
    split; [|split].
    + rewrite Hnames, map_app, <- app_assoc.
      rewrite (omap_first_name_asked messages m tc rest new Hcalls). reflexivity.
    + rewrite length_app in Hcount. cbn in *. lia.
    + intros Hexit. cbn. rewrite (Hcap Hexit). reflexivity.
Qed.

Lemma stored_turns_app stored1 stored2 :
  stored_turns (stored1 ++ stored2) = stored_turns stored1 ++ stored_turns stored2.
Proof. rewrite List.filter_app, map_app. reflexivity. Qed.

(** The same for the loop as the page script runs it. *)
Lemma page_loop_trace prompt (w : world E (list StreamlitDemo.stored_message)) :
  exists new,
    exchanges (snd (page_loop prompt w)) = exchanges w ++ new
    /\ follows
         ([Msg system (Some StreamlitDemo.SYSTEM_PROMPT)]
          ++ stored_turns (history w)
          ++ [Msg user (Some prompt); Msg user (Some prompt)]) new
    /\ length new <= 3
    /\ (forall ctx e, In (ctx, Raise e) new -> fst (page_loop prompt w) = Raise e)
    /\ (forall exit info, fst (page_loop prompt w) = Ok (exit, info) ->
        map info_name info = omap first_name new
        /\ length info + match exit with Returned _ => 1 | Exhausted => 0 end
           = length new
        /\ (exit = Exhausted -> length new = 3)).
Proof.
  unfold Notions.page_loop.
  match goal with
  | |- context [tool_loop 3 ?messages ?info ?w1] =>
      destruct (page_trace 3 messages info w1 _ _ (surjective_pairing _))
        as (new & Hnew & Hfollows & Hlen & Hfault & Hinfo)
  end.
  exists new. split; [exact Hnew|]. split.
  - cbn [snd history StreamlitDemo.messages_append] in Hfollows.
    rewrite stored_turns_app in Hfollows. cbn in Hfollows.
    rewrite <- !app_assoc in Hfollows. exact Hfollows.
  - split; [exact Hlen|]. split; [exact Hfault|]. exact Hinfo.
Qed.

(** X12. When the page's [get_response] raises (an engine call failed,
    arguments or an outcome did not parse, or an exception left the
    dispatcher), the error leaves the script and
    the store holds the user's prompt after what it held, with no assistant
    entry; and a failed engine call always ends the run this way. *)
Theorem page_fault_keeps_prompt prompt (w : world E (list StreamlitDemo.stored_message)) :
  (forall e,
     fst (on_chat_input prompt w) = Raise e ->
     history (snd (on_chat_input prompt w))
     = history w ++ [StoredMessage user (Some prompt) []])
  /\ (forall new ctx e,
       exchanges (snd (on_chat_input prompt w)) = exchanges w ++ new ->
       In (ctx, Raise e) new ->
       fst (on_chat_input prompt w) = Raise e).
Proof.
  pose proof (page_loop_history create_chat_completion identify_material
                json_loads json_dumps prompt w) as Hhist.
  destruct (page_loop_trace prompt w) as (new' & Hnew' & _ & _ & Hfault & _).
  rewrite on_chat_input_unfold.
  destruct (page_loop prompt w) as [[[exit info]|e0] w1]; cbn in *.
  - split; [discriminate|].
    intros new ctx e Hnew Hin. rewrite Hnew' in Hnew. apply app_inv_head in Hnew. subst new'.
    discriminate (Hfault ctx e Hin).
  - split; [intros e _; exact Hhist|].
    intros new ctx e Hnew Hin. rewrite Hnew' in Hnew. apply app_inv_head in Hnew. subst new'.
    injection (Hfault ctx e Hin) as ->. reflexivity.
Qed.


(** X14. When a prompt is answered on the page, the assistant entry stored
    after the user's carries one tool detail per dispatched invocation, in
    order and under the name the engine asked for, at most three. *)
Theorem tool_details_name_the_invocations
    prompt (w : world E (list StreamlitDemo.stored_message)) new :
  fst (on_chat_input prompt w) = Ok tt ->
  exchanges (snd (on_chat_input prompt w)) = exchanges w ++ new ->
  exists response info,
    history (snd (on_chat_input prompt w))
    = history w ++ [StoredMessage user (Some prompt) []; StoredMessage assistant response info]
    /\ map info_name info = omap first_name new
    /\ length info <= 3.
Proof.
  intros Hok Hnew.
  destruct (on_chat_input_logs create_chat_completion identify_material
              json_loads json_dumps prompt w) as [Hlog _].
  rewrite Hlog in Hnew.
  pose proof (page_loop_history create_chat_completion identify_material
                json_loads json_dumps prompt w) as Hhist.
  destruct (page_loop_trace prompt w) as (new' & Hnew' & _ & Hlen & _ & Hinfo).
  rewrite Hnew' in Hnew. apply app_inv_head in Hnew. subst new'.
  rewrite on_chat_input_unfold in Hok |- *.
  destruct (page_loop prompt w) as [[[exit info]|e0] w1]; cbn in *; [|discriminate].
  destruct (Hinfo exit info eq_refl) as (Hnames & Hcount & _).
  eexists _, info. split; [rewrite Hhist, <- app_assoc; reflexivity|].
  split; [exact Hnames|]. destruct exit; lia.
Qed.

(** The footer reads the store and changes nothing. *)
Lemma script_chat_input_state prompt (w : world E (list StreamlitDemo.stored_message)) :
  prompt <> "" ->
  snd (script (StreamlitPage.ChatInput prompt) w) = snd (on_chat_input prompt w)
  /\ fst (script (StreamlitPage.ChatInput prompt) w)
     = match fst (on_chat_input prompt w) with
       | Ok _ =>
           Ok (StreamlitPage.messages_metric (history (snd (on_chat_input prompt w))),
               StreamlitPage.tool_calls_metric (history (snd (on_chat_input prompt w))))
       | Raise e => Raise e
       end.
Proof.
  intros Hfull. unfold StreamlitPage.script.
  rewrite bool_decide_eq_false_2 by exact Hfull.
  unfold bind, StreamlitPage.footer, get_history, ret.
  destruct (on_chat_input prompt w) as [[u|e] w1]; split; reflexivity.
Qed.

(** X15. The footer after an answered prompt: [Messages] is up by two, and
    [Tool Calls] is up by one when the engine was called more than once
    (some invocation was dispatched) and unchanged otherwise; it counts the
    answers that used a tool, not the invocations. *)
Theorem footer_after_prompt prompt (w : world E (list StreamlitDemo.stored_message))
    messages_shown tool_calls_shown w' :
  prompt <> "" ->
  script (StreamlitPage.ChatInput prompt) w = (Ok (messages_shown, tool_calls_shown), w') ->
  exists new,
    exchanges w' = exchanges w ++ new
    /\ messages_shown = StreamlitPage.messages_metric (history w) + 2
    /\ tool_calls_shown
       = StreamlitPage.tool_calls_metric (history w)
         + (if Nat.leb (length new) 1 then 0 else 1).
Proof.
  intros Hfull Hscript.
  destruct (script_chat_input_state prompt w Hfull) as [Hstate Hresult].
  rewrite Hscript in Hstate, Hresult. cbn [fst snd] in Hstate, Hresult. subst w'.
  destruct (on_chat_input_logs create_chat_completion identify_material
              json_loads json_dumps prompt w) as [Hlog _].
  pose proof (page_loop_history create_chat_completion identify_material
                json_loads json_dumps prompt w) as Hhist.
  destruct (page_loop_trace prompt w) as (new & Hnew & _ & _ & _ & Hinfo).
  exists new. split; [rewrite Hlog; exact Hnew|].
  rewrite on_chat_input_unfold in Hresult.
  destruct (page_loop prompt w) as [[[exit info]|e0] w1]; cbn in *; [|discriminate].
  destruct (Hinfo exit info eq_refl) as (_ & Hcount & Hcap).
  injection Hresult as -> ->.
  unfold StreamlitPage.messages_metric, StreamlitPage.tool_calls_metric.
  rewrite Hhist, List.filter_app, !length_app, List.filter_app, length_app. cbn.
  split; [lia|].
  destruct info as [|entry info]; cbn in *.
  - destruct exit; [|specialize (Hcap eq_refl); lia].
    replace (length new) with 1 by lia. cbn. lia.
  - destruct exit.
    + replace (length new) with (S (S (length info))) by lia. cbn. lia.
    + rewrite (Hcap eq_refl). cbn. lia.
Qed.



End MorePageFacts.

(** ** Examples: the statements at concrete inputs *)

Section Examples.

#[local] Abbreviation execute_tool :=
  (DemoTools.execute_tool (E:=list (res message)) (H:=list turn) Doubles.classify Doubles.dumps).

(** For an unknown name the text is
    [{"success": false, "error": "Unknown tool: lookup_density"}]. *)
Lemma unknown_tool_is_refused_witness :
  execute_tool "lookup_density" (PDict Doubles.ceria_args) (Doubles.cli [])
  = (Ok ("{" +:+ Doubles.q +:+ "success" +:+ Doubles.q +:+ ": false, "
         +:+ Doubles.q +:+ "error" +:+ Doubles.q +:+ ": "
         +:+ Doubles.q +:+ "Unknown tool: lookup_density" +:+ Doubles.q +:+ "}"),
     Doubles.cli [])
  /\ contains "Unknown tool: lookup_density" "lookup_density".
Proof.
  destruct (unknown_tool_is_refused Doubles.classify Doubles.dumps
              "lookup_density" (PDict Doubles.ceria_args) (Doubles.cli []))
    as (error & -> & Hcontains & Hrun & _).
  - vm_compute. discriminate.
  - split; [rewrite Hrun; vm_compute; reflexivity|exact Hcontains].
Defined.

(** Without the formation energy the text is
    [{"success": false, "error": "Missing argument: 'formation_energy'"}]. *)
Lemma missing_key_fails_fast_witness :
  execute_tool "identify_material" (PDict Doubles.two_peaks_args) (Doubles.cli [])
  = (Ok ("{" +:+ Doubles.q +:+ "success" +:+ Doubles.q +:+ ": false, "
         +:+ Doubles.q +:+ "error" +:+ Doubles.q +:+ ": "
         +:+ Doubles.q +:+ "Missing argument: 'formation_energy'" +:+ Doubles.q +:+ "}"),
     Doubles.cli [])
  /\ contains "Missing argument: 'formation_energy'" "formation_energy".
Proof.
  destruct (missing_key_fails_fast Doubles.classify Doubles.dumps
              Doubles.two_peaks_args (Doubles.cli []))
    as (key & error & Hkey & Hlacks & -> & Hcontains & Hrun & _).
  - exists "formation_energy". split; [simpl; auto|reflexivity].
  - simpl in Hkey. destruct Hkey as [<-|[<-|[<-|[]]]]; try discriminate Hlacks.
    split; [rewrite Hrun; vm_compute; reflexivity|exact Hcontains].
Defined.

(** For the dictionary of the smoke test the text is
    [{"success": true, "result": "Ceria (CeO2), confidence 0.97"}]. *)
Lemma success_wraps_result_witness :
  execute_tool "identify_material" (PDict DemoTools.test_args) (Doubles.cli [])
  = (Ok ("{" +:+ Doubles.q +:+ "success" +:+ Doubles.q +:+ ": true, "
         +:+ Doubles.q +:+ "result" +:+ Doubles.q +:+ ": "
         +:+ Doubles.q +:+ "Ceria (CeO2), confidence 0.97" +:+ Doubles.q +:+ "}"),
     World [] [] [] [(PInt 465, PInt 610, PFloat (-11.2))]).
Proof.
  destruct (success_wraps_result Doubles.classify Doubles.dumps DemoTools.test_args
              (PInt 465) (PInt 610) (PFloat (-11.2))
              (PStr "Ceria (CeO2), confidence 0.97") (Doubles.cli []))
    as (Hreturns & _); [reflexivity..|].
  apply Hreturns. vm_compute. reflexivity.
Defined.

(** A classifier that returns a value [json.dumps] cannot write: the
    dispatcher returns a failure outcome, not a success outcome around the
    value. *)
Lemma unserialisable_result_becomes_failure :
  Doubles.long_number_classifier (PInt 465) (PInt 610) (PFloat (-11.2))
  = Ok (PInt (10 ^ 4300))
  /\ Doubles.dumps (PDict (<["success" := PBool true]> (<["result" := PInt (10 ^ 4300)]> ∅)))
     = Raise Doubles.digits_error
  /\ fst (DemoTools.execute_tool (E:=list (res message)) (H:=list turn)
            Doubles.long_number_classifier Doubles.dumps
            "identify_material" (PDict DemoTools.test_args) (Doubles.cli []))
     = Ok ("{" +:+ Doubles.q +:+ "success" +:+ Doubles.q +:+ ": false, "
           +:+ Doubles.q +:+ "error" +:+ Doubles.q +:+ ": " +:+ Doubles.q
           +:+ "Exceeds the limit (4300 digits) for integer string conversion; use sys.set_int_max_str_digits() to increase the limit"
           +:+ Doubles.q +:+ "}").
Proof.
  split; [reflexivity|]. split; vm_compute; reflexivity.
Qed.

(** When the classifier double rejects a peak given as text the text is
    [{"success": false, "error": "features must be numbers"}]. *)
Lemma classifier_exception_becomes_failure_witness :
  execute_tool "identify_material" (PDict Doubles.text_peak_args) (Doubles.cli [])
  = (Ok ("{" +:+ Doubles.q +:+ "success" +:+ Doubles.q +:+ ": false, "
         +:+ Doubles.q +:+ "error" +:+ Doubles.q +:+ ": "
         +:+ Doubles.q +:+ "features must be numbers" +:+ Doubles.q +:+ "}"),
     World [] [] [] [(PStr "465 cm^-1", PInt 610, PFloat (-11.2))]).
Proof.
  destruct (classifier_exception_becomes_failure Doubles.classify Doubles.dumps
              (PDict Doubles.text_peak_args)
              (PStr "465 cm^-1") (PInt 610) (PFloat (-11.2)) (Doubles.cli []))
    as (_ & Hother & _); [reflexivity..|].
  rewrite (Hother "ValueError" "features must be numbers") by reflexivity.
  vm_compute. reflexivity.
Defined.

(** A classifier interrupted from the keyboard: the [KeyboardInterrupt] is
    not an instance of [Exception], no handler takes it, and it leaves the
    dispatcher. *)
Lemma interrupt_leaves_the_dispatcher :
  Doubles.interrupted_classifier (PInt 465) (PInt 610) (PFloat (-11.2))
  = Raise (BaseOnly "KeyboardInterrupt" "")
  /\ fst (DemoTools.execute_tool (E:=list (res message)) (H:=list turn)
            Doubles.interrupted_classifier Doubles.dumps
            "identify_material" (PDict DemoTools.test_args) (Doubles.cli []))
     = Raise (BaseOnly "KeyboardInterrupt" "").
Proof. split; reflexivity. Qed.

Lemma outcome_depends_on_three_keys_witness :
  execute_tool "identify_material" (PDict Doubles.ceria_args) (Doubles.cli [])
  = execute_tool "identify_material" (PDict Doubles.ceria_args_extra) (Doubles.cli []).
Proof.
  apply (outcome_depends_on_three_keys Doubles.classify Doubles.dumps
           "identify_material" Doubles.ceria_args Doubles.ceria_args_extra (Doubles.cli [])).
  intros key Hin. simpl in Hin.
  destruct Hin as [<-|[<-|[<-|[]]]]; reflexivity.
Defined.

#[local] Abbreviation chat :=
  (DemoLlm.chat Doubles.scripted_completion Doubles.classify Doubles.loads Doubles.dumps).
#[local] Abbreviation cli_tool_loop :=
  (DemoLlm.tool_loop Doubles.scripted_completion Doubles.classify Doubles.loads Doubles.dumps).
#[local] Abbreviation on_chat_input :=
  (StreamlitDemo.on_chat_input Doubles.scripted_completion Doubles.classify
     Doubles.loads Doubles.dumps).
#[local] Abbreviation page_loop :=
  (Notions.page_loop Doubles.scripted_completion Doubles.classify Doubles.loads Doubles.dumps).

Lemma answered_turn_appends_two_witness :
  (fst (chat Doubles.question (Doubles.cli Doubles.two_cycles)) = Ok (Some "This is ceria.")
   /\ history (snd (chat Doubles.question (Doubles.cli Doubles.two_cycles)))
      = [Msg user (Some Doubles.question); Msg assistant (Some "This is ceria.")])
  /\ (fst (on_chat_input Doubles.question (Doubles.page Doubles.two_cycles)) = Ok tt
      /\ map StreamlitDemo.sm_role
           (history (snd (on_chat_input Doubles.question (Doubles.page Doubles.two_cycles))))
         = [user; assistant]).
Proof.
  destruct (answered_turn_appends_two Doubles.scripted_completion Doubles.classify
              Doubles.loads Doubles.dumps) as [Hcli Hweb].
  split.
  - eapply (Hcli Doubles.question (Doubles.cli Doubles.two_cycles)). vm_compute. reflexivity.
  - edestruct (Hweb Doubles.question (Doubles.page Doubles.two_cycles)) as [Hret Hhist].
    + vm_compute. reflexivity.
    + split; [exact Hret|]. rewrite Hhist. reflexivity.
Defined.

Lemma cap_returns_fallback_witness :
  (fst (chat Doubles.question (Doubles.cli Doubles.three_requests))
   = Ok (Some "I had trouble processing that request. Could you rephrase?")
   /\ history (snd (chat Doubles.question (Doubles.cli Doubles.three_requests)))
      = [Msg user (Some Doubles.question)]
   /\ exists new,
       exchanges (snd (chat Doubles.question (Doubles.cli Doubles.three_requests))) = new
       /\ length new = 3 /\ Forall asked_for_tool new)
  /\ (fst (on_chat_input Doubles.question (Doubles.page Doubles.three_requests)) = Ok tt
      /\ map StreamlitDemo.sm_content
           (history (snd (on_chat_input Doubles.question (Doubles.page Doubles.three_requests))))
         = [Some Doubles.question;
            Some "I had trouble processing that. Could you rephrase?"]).
Proof.
  destruct (cap_returns_fallback Doubles.scripted_completion Doubles.classify
              Doubles.loads Doubles.dumps) as [Hcli Hweb].
  split.
  - eapply (Hcli Doubles.question (Doubles.cli Doubles.three_requests)).
    vm_compute. reflexivity.
  - edestruct (Hweb Doubles.question (Doubles.page Doubles.three_requests)) as [Hret Hhist].
    + vm_compute. reflexivity.
    + split; [exact Hret|]. rewrite Hhist. reflexivity.
Defined.

(** The page at the cap: the loop uses up its iterations, and the stored
    history then ends with an assistant turn, whose text is not the text
    [chat] returns at the cap. *)
Lemma cap_on_page_stores_assistant_turn :
  (exists info w1,
     page_loop Doubles.question (Doubles.page Doubles.three_requests)
     = (Ok (Exhausted, info), w1))
  /\ map StreamlitDemo.sm_role
       (history (snd (on_chat_input Doubles.question (Doubles.page Doubles.three_requests))))
     = [user; assistant]
  /\ map StreamlitDemo.sm_content
       (history (snd (on_chat_input Doubles.question (Doubles.page Doubles.three_requests))))
     = [Some Doubles.question; Some StreamlitDemo.FALLBACK]
  /\ StreamlitDemo.FALLBACK <> DemoLlm.FALLBACK.
Proof.
  split; [eexists _, _; vm_compute; reflexivity|].
  split; [vm_compute; reflexivity|].
  split; [vm_compute; reflexivity|].
  discriminate.
Qed.

Lemma unparsable_arguments_raise_witness :
  (fst (cli_tool_loop 3 [Msg user (Some Doubles.question)] (Doubles.cli Doubles.broken_request))
   = Raise Doubles.decode_error
   /\ invocations
        (snd (cli_tool_loop 3 [Msg user (Some Doubles.question)]
                (Doubles.cli Doubles.broken_request)))
      = [])
  /\ (fst (chat Doubles.question (Doubles.cli Doubles.broken_request))
      = Raise Doubles.decode_error
      /\ history (snd (chat Doubles.question (Doubles.cli Doubles.broken_request)))
         = [Msg user (Some Doubles.question)]
      /\ length (invocations (snd (chat Doubles.question (Doubles.cli Doubles.broken_request))))
         < 1).
Proof.
  destruct (unparsable_arguments_raise Doubles.scripted_completion Doubles.classify
              Doubles.loads Doubles.dumps 2 [Msg user (Some Doubles.question)]
              (Doubles.cli Doubles.broken_request) [Doubles.answers "This is ceria."]
              Doubles.broken_reply
              (ToolCall "call_1" (FunctionCall "identify_material" Doubles.broken_text))
              [] Doubles.decode_error)
    as [Hcycle Hchat]; [reflexivity..|].
  split; [exact Hcycle|].
  edestruct (Hchat Doubles.question (Doubles.cli Doubles.broken_request))
    as (Hraise & Hhist & Hless); [vm_compute; reflexivity|left; reflexivity|].
  split; [exact Hraise|split; [exact Hhist|exact Hless]].
Defined.

(** A reply with a payload that is not JSON: nothing is dispatched, no
    outcome is produced, and the parse error leaves [chat]. *)
Lemma broken_payload_raises_out_of_chat :
  Doubles.loads Doubles.broken_text = Raise Doubles.decode_error
  /\ fst (chat Doubles.question (Doubles.cli Doubles.broken_request))
     = Raise Doubles.decode_error
  /\ invocations (snd (chat Doubles.question (Doubles.cli Doubles.broken_request))) = []
  /\ Forall plain
       (concat (map fst (exchanges (snd (chat Doubles.question
                                            (Doubles.cli Doubles.broken_request)))))).
Proof.
  split; [reflexivity|]. split; [reflexivity|]. split; [reflexivity|].
  vm_compute. repeat constructor.
Qed.

Lemma engine_fault_propagates_witness :
  fst (chat Doubles.question (Doubles.cli Doubles.failing_engine)) = Raise Doubles.timeout_error
  /\ history (snd (chat Doubles.question (Doubles.cli Doubles.failing_engine)))
     = [Msg user (Some Doubles.question)].
Proof.
  eapply (engine_fault_propagates Doubles.scripted_completion Doubles.classify
            Doubles.loads Doubles.dumps Doubles.question (Doubles.cli Doubles.failing_engine)).
  - vm_compute. reflexivity.
  - right. left. reflexivity.
Defined.

Lemma every_invocation_is_resolved_witness :
  (Forall (fun x => resolved (fst x))
     (exchanges (snd (chat Doubles.question (Doubles.cli Doubles.two_cycles))))
   /\ chained (exchanges (snd (chat Doubles.question (Doubles.cli Doubles.two_cycles))))
   /\ length (invocations (snd (chat Doubles.question (Doubles.cli Doubles.two_cycles))))
      <= 0 + length (exchanges (snd (chat Doubles.question (Doubles.cli Doubles.two_cycles)))))
  /\ (Forall (fun x => resolved (fst x))
        (exchanges (snd (on_chat_input Doubles.question (Doubles.page Doubles.two_cycles))))
      /\ chained
           (exchanges (snd (on_chat_input Doubles.question (Doubles.page Doubles.two_cycles))))
      /\ length (invocations
                   (snd (on_chat_input Doubles.question (Doubles.page Doubles.two_cycles))))
         <= 0 + length (exchanges
                          (snd (on_chat_input Doubles.question
                                  (Doubles.page Doubles.two_cycles))))).
Proof.
  destruct (every_invocation_is_resolved Doubles.scripted_completion Doubles.classify
              Doubles.loads Doubles.dumps) as [Hcli Hweb].
  split.
  - apply (Hcli Doubles.question (Doubles.cli Doubles.two_cycles)); [constructor|reflexivity].
  - apply (Hweb Doubles.question (Doubles.page Doubles.two_cycles)). reflexivity.
Defined.

(** The two conversations of the design document: a question without data
    costs one engine call and no classifier call; a question with the data
    costs two engine calls and one classifier call, and the second context
    ends with the outcome.  Both add two turns to the history. *)
Example plain_question :
  let w := snd (chat "What is Raman spectroscopy?"
                  (Doubles.cli [Doubles.answers "A light-scattering technique."])) in
  length (exchanges w) = 1 /\ length (invocations w) = 0 /\ length (history w) = 2
  /\ Forall plain (concat (map fst (exchanges w))).
Proof. vm_compute. repeat split; repeat constructor. Qed.

Example question_with_data :
  let w := snd (chat Doubles.question
                  (Doubles.cli [Doubles.asks "call_1" Doubles.ceria_text;
                                Doubles.answers "This is ceria."])) in
  length (exchanges w) = 2 /\ length (invocations w) = 1
  /\ history w = [Msg user (Some Doubles.question); Msg assistant (Some "This is ceria.")]
  /\ (exists ctx reply text,
        exchanges w !! 1 = Some (ctx, reply)
        /\ last ctx = Some (ToolResult "call_1" text)
        /\ text = Doubles.ceria_outcome_text).
Proof.
  cbv zeta. split; [reflexivity|]. split; [reflexivity|]. split; [reflexivity|].
  eexists _, _, _. split; [vm_compute; reflexivity|]. split; reflexivity.
Qed.

(** Of two invocations in one reply the first is dispatched and resolved
    in the next context; the second leaves no trace. *)
Example only_first_invocation_is_honoured :
  let w := snd (chat Doubles.question (Doubles.cli Doubles.two_at_once)) in
  invocations w = [(PInt 465, PInt 610, PFloat (-11.2))]
  /\ (exists ctx reply text,
        exchanges w !! 1 = Some (ctx, reply)
        /\ drop 2 ctx
           = [ToolRequest
                [ToolCall "call_1" (FunctionCall "identify_material" Doubles.ceria_text)];
              ToolResult "call_1" text]).
Proof.
  cbv zeta. split; [reflexivity|].
  eexists _, _, _. split; [vm_compute; reflexivity|]. reflexivity.
Qed.

End Examples.

(** ** Examples for the further properties *)

Section MoreExamples.

#[local] Abbreviation execute_tool :=
  (DemoTools.execute_tool (E:=list (res message)) (H:=list turn) Doubles.classify Doubles.dumps).
#[local] Abbreviation chat :=
  (DemoLlm.chat Doubles.scripted_completion Doubles.classify Doubles.loads Doubles.dumps).
#[local] Abbreviation main_loop :=
  (DemoLlmMain.main_loop Doubles.scripted_completion Doubles.classify Doubles.loads
     Doubles.dumps MoreDoubles.strip MoreDoubles.lower).
#[local] Abbreviation on_chat_input :=
  (StreamlitDemo.on_chat_input Doubles.scripted_completion Doubles.classify
     Doubles.loads Doubles.dumps).
#[local] Abbreviation script :=
  (StreamlitPage.script Doubles.scripted_completion Doubles.classify
     Doubles.loads Doubles.dumps).
#[local] Abbreviation follows :=
  (Observations.follows Doubles.classify Doubles.loads Doubles.dumps).

(** For a list in place of the dictionary the text is
    [{"success": false, "error": "list indices must be integers or slices, not str"}]. *)
Lemma non_dictionary_arguments_fail_witness :
  execute_tool "identify_material" (PList [PInt 465; PInt 610]) (Doubles.cli [])
  = (Ok ("{" +:+ Doubles.q +:+ "success" +:+ Doubles.q +:+ ": false, "
         +:+ Doubles.q +:+ "error" +:+ Doubles.q +:+ ": " +:+ Doubles.q
         +:+ "list indices must be integers or slices, not str" +:+ Doubles.q +:+ "}"),
     Doubles.cli []).
Proof.
  destruct (non_dictionary_arguments_fail Doubles.classify Doubles.dumps
              "identify_material" (PList [PInt 465; PInt 610]) (Doubles.cli []))
    as (error & Hrun & Hfirst & _).
  - intros d. discriminate.
  - specialize (Hfirst eq_refl). injection Hfirst as <-.
    rewrite Hrun. vm_compute. reflexivity.
Defined.

(** With the first peak alone the text is
    [{"success": false, "error": "Missing argument: 'peak_2'"}]. *)
Lemma first_missing_key_is_named_witness :
  execute_tool "identify_material" (PDict (<["peak_1" := PInt 465]> ∅)) (Doubles.cli [])
  = (Ok ("{" +:+ Doubles.q +:+ "success" +:+ Doubles.q +:+ ": false, "
         +:+ Doubles.q +:+ "error" +:+ Doubles.q +:+ ": " +:+ Doubles.q
         +:+ "Missing argument: 'peak_2'" +:+ Doubles.q +:+ "}"),
     Doubles.cli []).
Proof.
  rewrite (first_missing_key_is_named Doubles.classify Doubles.dumps
             (<["peak_1" := PInt 465]> ∅) ["peak_1"] "peak_2" ["formation_energy"]
             (Doubles.cli [])).
  - vm_compute. reflexivity.
  - reflexivity.
  - intros k [<-|[]]. exists (PInt 465). reflexivity.
  - reflexivity.
Defined.

(** After an earlier answered turn: a question answered after two tool
    cycles adds the user's turn and the answer. *)
Lemma chat_keeps_history_well_formed_witness :
  answers_follow_questions
    (history (snd (chat Doubles.question
                     (World Doubles.two_cycles MoreDoubles.earlier_cli [] []))))
  /\ history (snd (chat Doubles.question
                     (World Doubles.two_cycles MoreDoubles.earlier_cli [] [])))
     = [Msg user (Some "Tell me about Ceria"); Msg assistant (Some "Ceria is cerium dioxide.");
        Msg user (Some Doubles.question); Msg assistant (Some "This is ceria.")]
  /\ fst (chat Doubles.question (World Doubles.two_cycles MoreDoubles.earlier_cli [] []))
     = Ok (Some "This is ceria.").
Proof.
  destruct (chat_keeps_history_well_formed Doubles.scripted_completion Doubles.classify
              Doubles.loads Doubles.dumps Doubles.question
              (World Doubles.two_cycles MoreDoubles.earlier_cli [] []))
    as (Hformed & suffix & Hhistory & Hcase).
  - split.
    + intros t [<-|[<-|[]]]; eauto.
    + intros [|[|[|i]]] c Hi; try discriminate Hi.
      exists 0, (Some "Tell me about Ceria"). split; reflexivity.
  - assert (Hloop : fst (Notions.chat_loop Doubles.scripted_completion Doubles.classify
                           Doubles.loads Doubles.dumps Doubles.question
                           (World Doubles.two_cycles MoreDoubles.earlier_cli [] []))
                    = Ok (Returned (Some "This is ceria.")))
      by (vm_compute; reflexivity).
    rewrite Hloop in Hcase. destruct Hcase as (-> & Hreturned & _).
    split; [exact Hformed|]. split; [exact Hhistory|exact Hreturned].
Defined.

Lemma last_exchange_decides_witness :
  exists init x,
    exchanges (snd (chat Doubles.question (Doubles.cli Doubles.three_requests))) = init ++ [x]
    /\ length (exchanges (snd (chat Doubles.question (Doubles.cli Doubles.three_requests)))) <= 3
    /\ Forall asked_for_tool init
    /\ fst (chat Doubles.question (Doubles.cli Doubles.three_requests))
       = match Observations.verdict Doubles.classify Doubles.loads Doubles.dumps x with
         | Ok (Returned content) => Ok content
         | Ok Exhausted => Ok (Some DemoLlm.FALLBACK)
         | Raise e => Raise e
         end
    /\ (Observations.verdict Doubles.classify Doubles.loads Doubles.dumps x = Ok Exhausted ->
        length (exchanges (snd (chat Doubles.question (Doubles.cli Doubles.three_requests))))
        = 3).
Proof.
  apply (last_exchange_decides Doubles.scripted_completion Doubles.classify
           Doubles.loads Doubles.dumps Doubles.question (Doubles.cli Doubles.three_requests)).
  reflexivity.
Defined.

Lemma chat_contexts_follow_witness :
  follows
    ([Msg system (Some DemoLlm.SYSTEM_PROMPT)] ++ [] ++ [Msg user (Some Doubles.question)])
    (exchanges (snd (chat Doubles.question (Doubles.cli Doubles.two_cycles)))).
Proof.
  apply (chat_contexts_follow Doubles.scripted_completion Doubles.classify
           Doubles.loads Doubles.dumps Doubles.question (Doubles.cli Doubles.two_cycles)).
  reflexivity.
Defined.

Lemma classifier_calls_are_the_asked_ones_witness :
  invocations (snd (chat Doubles.question (Doubles.cli Doubles.two_at_once)))
  = [] ++ Observations.asked_invocations Doubles.loads
            (exchanges (snd (chat Doubles.question (Doubles.cli Doubles.two_at_once)))).
Proof.
  apply (classifier_calls_are_the_asked_ones Doubles.scripted_completion Doubles.classify
           Doubles.loads Doubles.dumps Doubles.question (Doubles.cli Doubles.two_at_once)).
  reflexivity.
Defined.

Lemma unanswered_message_stays_in_context_witness :
  history (snd (chat Doubles.question (Doubles.cli Doubles.failing_engine)))
  = [] ++ [Msg user (Some Doubles.question)]
  /\ exists x rest,
      drop 2 (exchanges
                (snd (chat "Again: what is it?"
                        (snd (chat Doubles.question (Doubles.cli Doubles.failing_engine))))))
      = x :: rest
      /\ fst x = [Msg system (Some DemoLlm.SYSTEM_PROMPT)]
                 ++ []
                 ++ [Msg user (Some Doubles.question); Msg user (Some "Again: what is it?")].
Proof.
  apply (unanswered_message_stays_in_context Doubles.scripted_completion Doubles.classify
           Doubles.loads Doubles.dumps Doubles.question "Again: what is it?"
           (Doubles.cli Doubles.failing_engine)).
  - left. exists Doubles.timeout_error. reflexivity.
  - vm_compute. reflexivity.
Defined.

Lemma clear_history_forgets_witness :
  (exists x rest,
     drop 3 (exchanges
               (snd (chat "And titania?"
                       (snd (DemoLlm.clear_history
                               (snd (chat Doubles.question
                                       (Doubles.cli (Doubles.two_cycles
                                                     ++ [Doubles.answers "Anatase."])))))))))
     = x :: rest
     /\ fst x = [Msg system (Some DemoLlm.SYSTEM_PROMPT); Msg user (Some "And titania?")])
  /\ 1 <= length
            (history
               (snd (chat "And titania?"
                       (snd (DemoLlm.clear_history
                               (snd (chat Doubles.question
                                       (Doubles.cli (Doubles.two_cycles
                                                     ++ [Doubles.answers "Anatase."])))))))))
     <= 2.
Proof.
  apply (clear_history_forgets Doubles.scripted_completion Doubles.classify
           Doubles.loads Doubles.dumps "And titania?"
           (snd (chat Doubles.question
                   (Doubles.cli (Doubles.two_cycles ++ [Doubles.answers "Anatase."]))))).
  vm_compute. reflexivity.
Defined.

Lemma commands_never_reach_the_engine_witness :
  exists w',
    main_loop MoreDoubles.commands_only (Doubles.cli Doubles.two_cycles)
    = (Ok [DemoLlmMain.Typed "never read"], w')
    /\ llm w' = Doubles.two_cycles /\ exchanges w' = [] /\ invocations w' = []
    /\ (history w' = [] \/ history w' = []).
Proof.
  apply (commands_never_reach_the_engine Doubles.scripted_completion Doubles.classify
           Doubles.loads Doubles.dumps MoreDoubles.strip MoreDoubles.lower
           [DemoLlmMain.Typed "   "; DemoLlmMain.CtrlC; DemoLlmMain.Typed "help";
            DemoLlmMain.Typed " Clear "]
           "  EXIT" [DemoLlmMain.Typed "never read"] (Doubles.cli Doubles.two_cycles)).
  - constructor; [left; reflexivity|].
    constructor; [exact I|].
    constructor;
      [right; vm_compute; split; [discriminate|split; [discriminate|right; reflexivity]]|].
    constructor;
      [right; vm_compute; split; [discriminate|split; [discriminate|left; reflexivity]]|].
    constructor.
  - split; [vm_compute; discriminate|left; reflexivity].
Defined.

(** A dead engine ends the session with its exception; an engine
    interrupted from the keyboard does not: the same question, typed again,
    is answered, with the interrupted one still in the history. *)
Lemma engine_failure_meets_the_handlers_witness :
  (fst (main_loop [DemoLlmMain.Typed "help"; DemoLlmMain.Typed "What is ceria?";
                   DemoLlmMain.Typed "exit"]
          (Doubles.cli MoreDoubles.dead_engine))
   = Raise Doubles.timeout_error
   /\ history (snd (main_loop [DemoLlmMain.Typed "help"; DemoLlmMain.Typed "What is ceria?";
                               DemoLlmMain.Typed "exit"]
                      (Doubles.cli MoreDoubles.dead_engine)))
      = [Msg user (Some "What is ceria?")])
  /\ (fst (main_loop [DemoLlmMain.Typed "What is ceria?"; DemoLlmMain.Typed "What is ceria?";
                      DemoLlmMain.Typed "exit"; DemoLlmMain.Typed "never read"]
             (Doubles.cli MoreDoubles.interrupted_engine))
      = Ok [DemoLlmMain.Typed "never read"]
      /\ history (snd (main_loop [DemoLlmMain.Typed "What is ceria?";
                                  DemoLlmMain.Typed "What is ceria?";
                                  DemoLlmMain.Typed "exit"; DemoLlmMain.Typed "never read"]
                         (Doubles.cli MoreDoubles.interrupted_engine)))
         = [Msg user (Some "What is ceria?"); Msg user (Some "What is ceria?");
            Msg assistant (Some "Ceria is cerium dioxide.")]).
Proof.
  split.
  - destruct (engine_failure_meets_the_handlers Doubles.scripted_completion Doubles.classify
                Doubles.loads Doubles.dumps MoreDoubles.strip MoreDoubles.lower
                [DemoLlmMain.Typed "help"] "What is ceria?" [DemoLlmMain.Typed "exit"]
                (Doubles.cli MoreDoubles.dead_engine) Doubles.timeout_error)
      as (earlier & llm' & w1 & Hearlier & Hcall & -> & _ & _ & Hleaves).
    + constructor; [|constructor].
      right. vm_compute. split; [discriminate|split; [discriminate|right; reflexivity]].
    + vm_compute. repeat split; discriminate.
    + intros ctx. exists []. reflexivity.
    + change ([DemoLlmMain.Typed "help"; DemoLlmMain.Typed "What is ceria?";
               DemoLlmMain.Typed "exit"])
        with ([DemoLlmMain.Typed "help"]
              ++ DemoLlmMain.Typed "What is ceria?" :: [DemoLlmMain.Typed "exit"]).
      rewrite Hleaves by discriminate.
      destruct Hearlier as [->| ->]; injection Hcall as <-; split; reflexivity.
  - destruct (engine_failure_meets_the_handlers Doubles.scripted_completion Doubles.classify
                Doubles.loads Doubles.dumps MoreDoubles.strip MoreDoubles.lower
                [] "What is ceria?"
                [DemoLlmMain.Typed "What is ceria?"; DemoLlmMain.Typed "exit";
                 DemoLlmMain.Typed "never read"]
                (Doubles.cli MoreDoubles.interrupted_engine)
                (BaseOnly "KeyboardInterrupt" ""))
      as (earlier & llm' & w1 & Hearlier & Hcall & -> & Hgoes_on & _).
    + constructor.
    + vm_compute. repeat split; discriminate.
    + intros ctx. exists [Doubles.answers "Ceria is cerium dioxide."]. reflexivity.
    + change ([DemoLlmMain.Typed "What is ceria?"; DemoLlmMain.Typed "What is ceria?";
               DemoLlmMain.Typed "exit"; DemoLlmMain.Typed "never read"])
        with ([] ++ DemoLlmMain.Typed "What is ceria?"
                    :: [DemoLlmMain.Typed "What is ceria?"; DemoLlmMain.Typed "exit";
                        DemoLlmMain.Typed "never read"]).
      rewrite (Hgoes_on "" eq_refl).
      destruct Hearlier as [->| ->]; injection Hcall as <-; split; vm_compute; reflexivity.
Defined.

Lemma page_fault_keeps_prompt_witness :
  fst (on_chat_input Doubles.question (Doubles.page Doubles.failing_engine))
  = Raise Doubles.timeout_error
  /\ history (snd (on_chat_input Doubles.question (Doubles.page Doubles.failing_engine)))
     = [] ++ [StreamlitDemo.StoredMessage user (Some Doubles.question) []].
Proof.
  destruct (page_fault_keeps_prompt Doubles.scripted_completion Doubles.classify
              Doubles.loads Doubles.dumps Doubles.question
              (Doubles.page Doubles.failing_engine)) as [Hkeeps Hraises].
  assert (Hraise : fst (on_chat_input Doubles.question (Doubles.page Doubles.failing_engine))
                   = Raise Doubles.timeout_error).
  { eapply Hraises; [vm_compute; reflexivity|right; left; reflexivity]. }
  split; [exact Hraise|apply (Hkeeps _ Hraise)].
Defined.


Lemma tool_details_name_the_invocations_witness :
  exists response info,
    history (snd (on_chat_input Doubles.question (Doubles.page Doubles.two_cycles)))
    = [] ++ [StreamlitDemo.StoredMessage user (Some Doubles.question) [];
             StreamlitDemo.StoredMessage assistant response info]
    /\ map StreamlitDemo.info_name info
       = omap first_name
           (exchanges (snd (on_chat_input Doubles.question (Doubles.page Doubles.two_cycles))))
    /\ length info <= 3.
Proof.
  apply (tool_details_name_the_invocations Doubles.scripted_completion Doubles.classify
           Doubles.loads Doubles.dumps Doubles.question (Doubles.page Doubles.two_cycles));
    reflexivity.
Defined.

Lemma footer_after_prompt_witness :
  exists new,
    exchanges (snd (script (StreamlitPage.ChatInput Doubles.question)
                      (World Doubles.two_cycles MoreDoubles.earlier_page [] [])))
    = [] ++ new
    /\ 4 = StreamlitPage.messages_metric MoreDoubles.earlier_page + 2
    /\ 1 = StreamlitPage.tool_calls_metric MoreDoubles.earlier_page
           + (if Nat.leb (length new) 1 then 0 else 1).
Proof.
  apply (footer_after_prompt Doubles.scripted_completion Doubles.classify
           Doubles.loads Doubles.dumps Doubles.question
           (World Doubles.two_cycles MoreDoubles.earlier_page [] []) 4 1).
  - discriminate.
  - vm_compute. reflexivity.
Defined.



(** [main] itself: without the model file, or when the engine does not
    load, there is no session; an interrupt while the engine loads leaves
    [main]; otherwise the loop runs on a fresh session. *)
Example main_without_model :
  DemoLlmMain.main Doubles.scripted_completion Doubles.classify Doubles.loads Doubles.dumps
    MoreDoubles.strip MoreDoubles.lower false (Ok Doubles.two_cycles)
    MoreDoubles.commands_only = DemoLlmMain.NoSession
  /\ DemoLlmMain.main Doubles.scripted_completion Doubles.classify Doubles.loads Doubles.dumps
       MoreDoubles.strip MoreDoubles.lower true (Raise Doubles.timeout_error)
       MoreDoubles.commands_only = DemoLlmMain.NoSession
  /\ DemoLlmMain.main Doubles.scripted_completion Doubles.classify Doubles.loads Doubles.dumps
       MoreDoubles.strip MoreDoubles.lower true (Raise (BaseOnly "KeyboardInterrupt" ""))
       MoreDoubles.commands_only = DemoLlmMain.LoadRaised (BaseOnly "KeyboardInterrupt" "")
  /\ DemoLlmMain.main Doubles.scripted_completion Doubles.classify Doubles.loads Doubles.dumps
       MoreDoubles.strip MoreDoubles.lower true (Ok Doubles.two_cycles)
       MoreDoubles.commands_only
     = DemoLlmMain.Session (Ok [DemoLlmMain.Typed "never read"]) (Doubles.cli Doubles.two_cycles).
Proof. repeat split; vm_compute; reflexivity. Qed.

End MoreExamples.
